(** * image_to_ascii: the image-to-glyph pipeline of [main.py]

    A shallow embedding of [main.py] and the properties of its resize
    arithmetic, luminance extraction, brightness mapping, grid rendering and
    batch orchestration.

    Python [int] is [Z]; Python [float] is the kernel's binary64 [float], so
    every rounding the interpreter performs is performed here as well; a
    Python [str] is the list of its code points; an exception is the left
    summand of [result].  The decoding, resampling and contrast primitives of
    the imaging library, the directory listing and the writing of a drawing
    to its file are collaborators, each of which may raise: they are the
    [Variable]s of the sections [Renderer] and [Pipeline].  The module's
    imports and its entry guard are outside the model: the orchestrator is
    [main] itself.

    Facts about all 8-bit values or all sides up to [SIDE_BOUND] are proved
    by evaluating the code's own float expressions over the whole range;
    [float_trunc_spec] ties the model of [int(f)] to the IEEE 754 reading of
    the float. *)

From Stdlib Require Import String Ascii ZArith QArith Qround List Bool.
From Stdlib Require Import Floats Uint63 Lia.
Import ListNotations.

#[local] Set Warnings "-inexact-float".
#[local] Open Scope bool_scope.
#[local] Open Scope Z_scope.

(** ** Exceptions and fallible computations *)

Inductive exn : Set :=
| TypeError (msg : string)
| IndexError
| ZeroDivisionError
| OverflowError
| ValueError
| UnboundLocalError (name : string)
| OSError (msg : string)
| FileNotFoundError.

Definition result (A : Type) : Type := (exn + A)%type.

Definition ret {A : Type} (a : A) : result A := inr a.
Definition raise {A : Type} (e : exn) : result A := inl e.
Definition bind {A B : Type} (m : result A) (k : A -> result B) : result B :=
  match m with
  | inl e => inl e
  | inr a => k a
  end.

Declare Scope py_scope.
Delimit Scope py_scope with py.
Notation "x <- m ;; k" := (bind m (fun x => k))
  (at level 61, m at next level, right associativity) : py_scope.
Notation "' p <- m ;; k" := (bind m (fun x => match x with p => k end))
  (at level 61, p pattern, m at next level, right associativity) : py_scope.
#[local] Open Scope py_scope.

(** A list comprehension whose element expression may raise: the first
    exception, in list order, ends the comprehension. *)
Fixpoint comprehension {A B : Type} (f : A -> result B) (l : list A)
  : result (list B) :=
  match l with
  | [] => ret []
  | a :: l' => b <- f a ;; bs <- comprehension f l' ;; ret (b :: bs)
  end.

(** A [for] loop over [l] threading the loop-carried variables [s]. *)
Fixpoint for_ {A S : Type} (l : list A) (body : A -> S -> result S) (s : S)
  : result S :=
  match l with
  | [] => ret s
  | a :: l' => s' <- body a s ;; for_ l' body s'
  end.

(** ** The fragment of Python that [main.py] uses *)

Module Py.

(** [str]: a sequence of Unicode code points. *)
Definition str : Type := list Z.

Definition of_string (s : string) : str :=
  map (fun a => Z.of_N (N_of_ascii a)) (list_ascii_of_string s).

Definition len {A : Type} (l : list A) : Z := Z.of_nat (length l).

Fixpoint eqb (s t : str) : bool :=
  match s, t with
  | [], [] => true
  | c :: s', d :: t' => (c =? d) && eqb s' t'
  | _, _ => false
  end.

(** [s.endswith(suffix)] *)
Definition endswith1 (s suffix : str) : bool :=
  (length suffix <=? length s)%nat
  && eqb (skipn (length s - length suffix) s) suffix.

(** [s.endswith(suffixes)] with a tuple of suffixes. *)
Definition endswith (s : str) (suffixes : list str) : bool :=
  existsb (endswith1 s) suffixes.

Definition startswith1 (s prefix : str) : bool :=
  (length prefix <=? length s)%nat && eqb (firstn (length prefix) s) prefix.

(** [s.split(sep)[0]] for a one-character separator. *)
Fixpoint split_head (sep : Z) (s : str) : str :=
  match s with
  | [] => []
  | c :: s' => if c =? sep then [] else c :: split_head sep s'
  end.

(** [os.path.join(a, b)] of posixpath. *)
Definition path_join (a b : str) : str :=
  if startswith1 b (of_string "/") then b
  else if (length a =? 0)%nat || endswith1 a (of_string "/") then a ++ b
  else a ++ of_string "/" ++ b.

(** [l[i]]: negative indices count from the end. *)
Definition getitem {A : Type} (l : list A) (i : Z) : result A :=
  let j := if i <? 0 then i + len l else i in
  if j <? 0 then raise IndexError
  else match nth_error l (Z.to_nat j) with
       | Some a => ret a
       | None => raise IndexError
       end.

(** [range(n)] *)
Definition range (n : Z) : list Z := map Z.of_nat (seq 0 (Z.to_nat n)).

(** An integer as the unrounded binary number [z * 2^0]. *)
Definition Z2SF (z : Z) : spec_float :=
  match z with
  | Z0 => S754_zero false
  | Zpos p => S754_finite false p 0
  | Zneg p => S754_finite true p 0
  end.

(** [float(z)], also the implicit conversion of an [int] operand of a
    [float] operation: the nearest binary64 number, ties to even. *)
Definition float_of_int (z : Z) : result float :=
  let f := SF2Prim (binary_normalize prec emax z 0 false) in
  if is_infinity f then raise OverflowError else ret f.

(** [a / b] on two [int]s: the correctly rounded quotient. *)
Definition int_truediv (a b : Z) : result float :=
  if b =? 0 then raise ZeroDivisionError
  else
    let q := SF2Prim (SFdiv prec emax (Z2SF a) (Z2SF b)) in
    if is_infinity q then raise OverflowError else ret q.

(** [int(f)]: truncation toward zero.  [frshiftexp] writes [abs f] as
    [m * 2^(e - shift)] with [m] in [[0.5, 1)], and [normfr_mantissa m] is
    the integer [m * 2^53], so that [abs f = n * 2^(e - 2154)]. *)
Definition float_trunc (f : float) : result Z :=
  if is_nan f then raise ValueError
  else if is_infinity f then raise OverflowError
  else
    let (m, e) := frshiftexp (abs f) in
    let n := normfr_mantissa m in
    let z := if (e <=? 2154)%uint63 then to_Z (n >> (2154 - e))
             else Z.shiftl (to_Z n) (to_Z e - 2154) in
    ret (if (f <? 0)%float then - z else z).

(** [x * f] and [f * x] with [x] an [int] and [f] a [float]. *)
Definition int_mul_float (x : Z) (f : float) : result float :=
  fx <- float_of_int x ;; ret (fx * f)%float.
Definition float_mul_int (f : float) (x : Z) : result float :=
  fx <- float_of_int x ;; ret (f * fx)%float.

End Py.

(** A value that a function of [main.py] hands to the drawing library as
    the text of a glyph: what is annotated [str] may be an [int] at run
    time. *)
Inductive pyval : Type :=
| PyInt (z : Z)
| PyStr (s : Py.str).

(** ** Module constants *)

Definition SUPPORTED_FORMATS : list Py.str :=
  [Py.of_string ".png"; Py.of_string ".jpg"; Py.of_string ".jpeg"].
Definition MAX_SIZE : Z := 200.
(** The first glyph is U+00D1, one code point. *)
Definition DENSITY_STRING : Py.str :=
  209 :: Py.of_string "@#W$9876543210?!abc;:+=-,. ".
Definition SCALE_FACTOR : Z := 10.
Definition FONT_FAMILY : Py.str := Py.of_string "Courier, monospace".
Definition ENHANCEMENT_FACTOR : float := 1.5%float.
Definition INPUT_DIRECTORY : Py.str := Py.of_string "input/".
Definition OUTPUT_DIRECTORY : Py.str := Py.of_string "output/".

(** ** Images and drawings *)

Definition rgb : Type := (Z * Z * Z)%type.

(** A decoded RGB image: [size] is [(width, height)], [getdata] the
    row-major pixels. *)
Record Image : Type := mkImage {
  size : Z * Z;
  getdata : list rgb
}.

Inductive element : Type :=
| rect (insert : Z * Z) (rsize : Py.str * Py.str) (fill : Py.str)
| text (content : pyval) (insert : Z * Z)
       (text_anchor dominant_baseline : Py.str)
       (font_size : Z) (font_family : Py.str) (fill : Py.str).

Record Drawing : Type := mkDrawing {
  filename : Py.str;
  dsize : Z * Z;
  profile : Py.str;
  elements : list element
}.

(** [dwg.add(e)] appends to the drawing's element list. *)
Definition add (dwg : Drawing) (e : element) : Drawing :=
  mkDrawing (filename dwg) (dsize dwg) (profile dwg) (elements dwg ++ [e]).

Definition is_text (e : element) : bool :=
  match e with
  | text _ _ _ _ _ _ _ => true
  | rect _ _ _ => false
  end.

(** What the program does to the outside world, in order. *)
Inductive event : Type :=
| Saved (path : Py.str) (dwg : Drawing)
| Printed (line : Py.str).

(** ** The pure stages *)

(** The dimension arithmetic of [resize_image]: the [new_size] it passes to
    the resampler. *)
Definition new_size (sz : Z * Z) (max_size : Z) : result (Z * Z) :=
  let '(width, height) := sz in
  scale_factor <- (if width >? height then Py.int_truediv max_size width
                   else Py.int_truediv max_size height) ;;
  fw <- Py.int_mul_float width scale_factor ;;
  w' <- Py.float_trunc fw ;;
  fh <- Py.int_mul_float height scale_factor ;;
  h' <- Py.float_trunc fh ;;
  ret (w', h').

Definition get_pixel_data (image : Image) : list rgb := getdata image.

Definition luminance (p : rgb) : result Z :=
  let '(r, g, b) := p in
  x <- Py.float_mul_int 0.299%float r ;;
  y <- Py.float_mul_int 0.587%float g ;;
  z <- Py.float_mul_int 0.114%float b ;;
  Py.float_trunc (x + y + z)%float.

Definition rgb_to_luminance (pixel_data : list rgb) : result (list Z) :=
  comprehension luminance pixel_data.

Definition luminance_to_ascii_char (luminance_data : Z) : result pyval :=
  q <- Py.int_truediv luminance_data 255 ;;
  p <- Py.float_mul_int q (Py.len DENSITY_STRING - 1) ;;
  density_index <- Py.float_trunc (p + 0.5)%float ;;
  ret (PyInt (Py.len DENSITY_STRING - density_index - 1)).

(** ** Effects: what is saved and printed *)

(** A computation that may raise and that appends to the trace of events;
    the events emitted before an exception stay in the trace. *)
Definition io (A : Type) : Type := list event -> result A * list event.

Definition io_ret {A : Type} (a : A) : io A := fun tr => (ret a, tr).
Definition io_bind {A B : Type} (m : io A) (k : A -> io B) : io B :=
  fun tr =>
    match m tr with
    | (inl e, tr') => (inl e, tr')
    | (inr a, tr') => k a tr'
    end.
Definition lift {A : Type} (r : result A) : io A := fun tr => (r, tr).
Definition emit (ev : event) : io unit := fun tr => (ret tt, tr ++ [ev]).

Notation "x <~ m ;; k" := (io_bind m (fun x => k))
  (at level 61, m at next level, right associativity) : py_scope.
Notation "' p <~ m ;; k" := (io_bind m (fun x => match x with p => k end))
  (at level 61, p pattern, m at next level, right associativity) : py_scope.

Fixpoint io_for {A S : Type} (l : list A) (body : A -> S -> io S) (s : S)
  : io S :=
  match l with
  | [] => io_ret s
  | a :: l' => s' <~ body a s ;; io_for l' body s'
  end.

(** ** The grid renderer *)

(** The body of the inner loop of [create_svg]: the text primitive of the
    cell [(x, y)]. *)
Definition cell_text (luminance_data : list Z) (width cell_size y x : Z)
  : result element :=
  let x_position := x * cell_size + cell_size / 2 in
  let y_position := y * cell_size + cell_size / 2 in
  let index := y * width + x in
  v <- Py.getitem luminance_data index ;;
  character <- luminance_to_ascii_char v ;;
  ret (text character (x_position, y_position)
         (Py.of_string "middle") (Py.of_string "middle")
         cell_size FONT_FAMILY (Py.of_string "white")).

Section Renderer.

(** [dwg.save()]: the drawing is serialised and written to the file it
    names.  The call raises when that file cannot be written, for one when
    the output directory does not exist: [main.py] never creates it. *)
Variable save : Drawing -> result unit.

(** A drawing that has been written is recorded as the event [Saved]; a
    write that raises leaves no event. *)
Definition create_svg (luminance_data : list Z) (dimensions : Z * Z)
  (file_name : Py.str) : io Py.str :=
  let '(width, height) := dimensions in
  let scaled_width := SCALE_FACTOR * width in
  let scaled_height := SCALE_FACTOR * height in
  let cell_size := Z.max scaled_width scaled_height in
  let file_name :=
    Py.path_join OUTPUT_DIRECTORY (file_name ++ Py.of_string ".svg") in
  let dwg :=
    mkDrawing file_name (scaled_width, scaled_height) (Py.of_string "full") []
  in
  let dwg :=
    add dwg (rect (0, 0) (Py.of_string "100%", Py.of_string "100%")
               (Py.of_string "black")) in
  dwg <~ lift (for_ (Py.range height) (fun y dwg =>
                 for_ (Py.range width) (fun x dwg =>
                   t <- cell_text luminance_data width cell_size y x ;;
                   ret (add dwg t)) dwg) dwg) ;;
  _ <~ lift (save dwg) ;;
  _ <~ emit (Saved file_name dwg) ;;
  io_ret file_name.

End Renderer.

(** ** The orchestrator and its collaborators *)

Section Pipeline.

(** [os.listdir] *)
Variable listdir : Py.str -> result (list Py.str).
(** [str.lower] *)
Variable lower : Py.str -> Py.str.
(** [Image.open(path)] followed by [convert('RGB')] *)
Variable open_rgb : Py.str -> result Image.
(** [image.resize(size, Image.Resampling.LANCZOS)] *)
Variable resize : Image -> Z * Z -> result Image.
(** [ImageEnhance.Contrast(image).enhance(factor)] *)
Variable enhance : Image -> float -> result Image.
(** [dwg.save()] *)
Variable save : Drawing -> result unit.

Definition load_image (file_path : Py.str) : result Image :=
  open_rgb file_path.

(** The test that sends a directory entry to the [else] branch of the
    loading loop. *)
Definition unsupported (file_name : Py.str) : Prop :=
  Py.endswith (lower file_name) SUPPORTED_FORMATS = false.

Definition load_images_from_directory (directory : Py.str)
  : result (list Py.str * list Image) :=
  names <- listdir directory ;;
  for_ names
    (fun file_name '(file_names, images) =>
       if Py.endswith (lower file_name) SUPPORTED_FORMATS then
         let file_path := Py.path_join directory file_name in
         image <- load_image file_path ;;
         ret (file_names ++ [file_name], images ++ [image])
       else raise (TypeError "This file type is not supported."))
    ([], []).

Definition resize_image (image : Image) (max_size : Z) : result Image :=
  sz <- new_size (size image) max_size ;;
  resize image sz.

Definition main : io unit :=
  ' (file_names, original_images) <~
      lift (load_images_from_directory INPUT_DIRECTORY) ;;
  resized_images <~
    lift (comprehension (fun image => resize_image image MAX_SIZE)
            original_images) ;;
  contrasted_images <~
    lift (for_ resized_images
            (fun image contrasted_images =>
               enhanced_image <- enhance image ENHANCEMENT_FACTOR ;;
               ret (contrasted_images ++ [enhanced_image]))
            []) ;;
  let rgb_data := map get_pixel_data contrasted_images in
  luminance_data <~ lift (comprehension rgb_to_luminance rgb_data) ;;
  file_name <~
    io_for (Py.range (Py.len luminance_data))
      (fun i (_ : option Py.str) =>
         l <~ lift (Py.getitem luminance_data i) ;;
         c <~ lift (Py.getitem contrasted_images i) ;;
         n <~ lift (Py.getitem file_names i) ;;
         saved <~ create_svg save l (size c) (Py.split_head 46 n) ;;
         io_ret (Some saved))
      None ;;
  match file_name with
  | Some saved =>
      emit (Printed (Py.of_string "Saved file: " ++ saved))
  | None => lift (raise (UnboundLocalError "file_name"))
  end.

End Pipeline.

(** ** The spec's notions, for comparison with the code *)

(** [round(n / d)] with ties rounded up: add one half and truncate. *)
Definition round_half_up (n d : Z) : Z := (2 * n + d) / (2 * d).

(** [floor(0.299 R + 0.587 G + 0.114 B)] over the rationals. *)
Definition luminance_exact (p : rgb) : Z :=
  let '(r, g, b) := p in
  Qfloor (0.299 * inject_Z r + 0.587 * inject_Z g + 0.114 * inject_Z b)%Q.

(** The density scale runs from the densest glyph, at position 0, to the
    sparsest, at the last position: the glyph at position [i] is less dense
    than the glyph at position [j] when [i] comes after [j]. *)
Definition less_dense (i j : Z) : Prop := j < i.

Definition channels_8bit (p : rgb) : Prop :=
  let '(r, g, b) := p in
  0 <= r <= 255 /\ 0 <= g <= 255 /\ 0 <= b <= 255.

(** Truncation toward zero read off the IEEE 754 description
    [(-1)^s * m * 2^e] of a binary64 number. *)
Definition SF_trunc (x : spec_float) : result Z :=
  match x with
  | S754_zero _ => ret 0
  | S754_finite s m e =>
      let a := if 0 <=? e then Zpos m * 2 ^ e else Zpos m / 2 ^ (- e) in
      ret (if s then - a else a)
  | S754_infinity _ => raise OverflowError
  | S754_nan => raise ValueError
  end.

(** ** Evaluation over finite ranges *)

(** The bounded universal quantifier over [0 .. n-1], on [Z]. *)
Fixpoint forall_below (n : nat) (p : Z -> bool) : bool :=
  match n with
  | O => true
  | S k => p (Z.of_nat k) && forall_below k p
  end.

(** The same over machine integers [i, i+1, .., i+n-1]. *)
Fixpoint all_from (n : nat) (i : int) (p : int -> bool) : bool :=
  match n with
  | O => true
  | S k => p i && all_from k (i + 1)%uint63 p
  end.

(** [Py.float_trunc] on the floats whose truncation is a nonnegative
    machine integer, without leaving the machine types. *)
Definition trunc_fast (f : float) : option int :=
  if is_nan f then None
  else if is_infinity f then None
  else
    let (m, e) := frshiftexp (abs f) in
    if (e <=? 2154)%uint63 then
      if (f <? 0)%float then None
      else Some (normfr_mantissa m >> (2154 - e))%uint63
    else None.

Definition float_of_int_agrees (z : Z) : bool :=
  match Py.float_of_int z with
  | inr f => PrimFloat.Leibniz.eqb f (of_uint63 (of_Z z))
  | inl _ => false
  end.

Definition int_truediv_agrees (a b : Z) : bool :=
  match Py.int_truediv a b with
  | inr f => PrimFloat.Leibniz.eqb f (of_uint63 (of_Z a) / of_uint63 (of_Z b))
  | inl _ => false
  end.

(** The mapper returns the integer position computed by the exact
    round-half-up formula. *)
Definition mapper_agrees (v : Z) : bool :=
  match luminance_to_ascii_char v with
  | inr (PyInt i) =>
      i =? Py.len DENSITY_STRING - 1
           - round_half_up (v * (Py.len DENSITY_STRING - 1)) 255
  | _ => false
  end.

(** The float expression of [luminance] on machine integers. *)
Definition lum_float (r g b : int) : float :=
  (0.299 * of_uint63 r + 0.587 * of_uint63 g + 0.114 * of_uint63 b)%float.

(** The truncated luminance [v] is at most 255 and
    [1000 v <= 299 r + 587 g + 114 b < 1000 (v + 2)]. *)
Definition lum_ok (r g b : int) : bool :=
  match trunc_fast (lum_float r g b) with
  | Some v =>
      let s := (299 * r + 587 * g + 114 * b)%uint63 in
      (v <=? 255)%uint63 && (1000 * v <=? s)%uint63
      && (s <? 1000 * v + 2000)%uint63
  | None => false
  end.

(** [lum_ok] with the red and green terms already summed: [x] is the float
    sum and [s] the integer sum of the first two terms. *)
Definition lum_ok_from (x : float) (s : int) (b : int) : bool :=
  match trunc_fast (x + 0.114 * of_uint63 b) with
  | Some v =>
      let t := (s + 114 * b)%uint63 in
      (v <=? 255)%uint63 && (1000 * v <=? t)%uint63
      && (t <? 1000 * v + 2000)%uint63
  | None => false
  end.

(** The float expressions of [new_size] on machine integers. *)
Definition scale_float (max_size w h : int) : float :=
  if (h <? w)%uint63 then (of_uint63 max_size / of_uint63 w)%float
  else (of_uint63 max_size / of_uint63 h)%float.

(** Both new sides are at least 1 whenever the longer side is at most
    [max_size] times the shorter one. *)
Definition resize_ok (max_size w h : int) : bool :=
  let lo := if (h <? w)%uint63 then h else w in
  let hi := if (h <? w)%uint63 then w else h in
  if (hi <=? max_size * lo)%uint63 then
    let sf := scale_float max_size w h in
    match trunc_fast (of_uint63 w * sf), trunc_fast (of_uint63 h * sf) with
    | Some w', Some h' => (1 <=? w')%uint63 && (1 <=? h')%uint63
    | _, _ => false
    end
  else true.

(** The largest side length over which the resize arithmetic is evaluated
    exhaustively. *)
Definition SIDE_BOUND : Z := 2048.

(** ** Names for the parts of a rendered drawing *)

Definition cell_size_of (dimensions : Z * Z) : Z :=
  Z.max (SCALE_FACTOR * fst dimensions) (SCALE_FACTOR * snd dimensions).

Definition output_path (file_name : Py.str) : Py.str :=
  Py.path_join OUTPUT_DIRECTORY (file_name ++ Py.of_string ".svg").

Definition background : element :=
  rect (0, 0) (Py.of_string "100%", Py.of_string "100%")
    (Py.of_string "black").

(** The centered white glyph of side [cell] at [(cx, cy)]. *)
Definition glyph (character : pyval) (cx cy cell : Z) : element :=
  text character (cx, cy) (Py.of_string "middle") (Py.of_string "middle")
    cell FONT_FAMILY (Py.of_string "white").

Definition texts (dwg : Drawing) : list element :=
  filter is_text (elements dwg).

Definition luminance_buffer (l : list Z) : Prop :=
  Forall (fun v => 0 <= v <= 255) l.

(** What [create_svg] does with the drawing it has built, [dwg.save()] and
    [return file_name]: when the write raises, so does the call, and the
    trace is as it was; otherwise the file is recorded as saved and its
    path returned. *)
Definition written (save : Drawing -> result unit) (dwg : Drawing)
  : io Py.str :=
  fun tr =>
    match save dwg with
    | inl e => (inl e, tr)
    | inr _ => (inr (filename dwg), tr ++ [Saved (filename dwg) dwg])
    end.

(** ** A sample environment *)

(** Lower-casing of the ASCII letters, the part of [str.lower] that
    decides file names written in ASCII. *)
Definition ascii_lower (s : Py.str) : Py.str :=
  map (fun c => if (65 <=? c) && (c <=? 90) then c + 32 else c) s.

Definition black_white : Image :=
  mkImage (2, 1) [(0, 0, 0); (255, 255, 255)].

Definition sample_listing : list Py.str :=
  [Py.of_string "photo.PNG"; Py.of_string "notes.txt"].

Definition listdir_sample (_ : Py.str) : result (list Py.str) :=
  ret sample_listing.

Definition open_sample (_ : Py.str) : result Image := ret black_white.

(** A resampler that honours the requested size and paints it black. *)
Definition resize_blank (_ : Image) (sz : Z * Z) : result Image :=
  ret (mkImage sz (repeat (0, 0, 0) (Z.to_nat (fst sz * snd sz)))).

Definition enhance_id (image : Image) (_ : float) : result Image :=
  ret image.


(** An output directory that takes every file, and one that is missing. *)
Definition save_ok (_ : Drawing) : result unit := ret tt.

Definition save_missing (_ : Drawing) : result unit :=
  raise FileNotFoundError.

(** ** Notions for the behaviour of the whole pipeline *)

(** The result of the loading loop for one directory entry. *)
Definition load_entry (lower : Py.str -> Py.str)
  (open_rgb : Py.str -> result Image) (directory file_name : Py.str)
  : result Image :=
  if Py.endswith (lower file_name) SUPPORTED_FORMATS then
    load_image open_rgb (Py.path_join directory file_name)
  else raise (TypeError "This file type is not supported.").

(** An image as the decoder promises it: non-negative sides, one 8-bit
    pixel per cell. *)
Definition well_formed (image : Image) : Prop :=
  0 <= fst (size image) /\ 0 <= snd (size image)
  /\ Py.len (getdata image) = fst (size image) * snd (size image)
  /\ Forall channels_8bit (getdata image).

(** Each new side [s'] of a side [s] is the exact quotient
    [max_size * s / longer], rounded down, or one less. *)
Definition resize_fits (max_size w h : int) : bool :=
  let hi := if (h <? w)%uint63 then w else h in
  let sf := scale_float max_size w h in
  match trunc_fast (of_uint63 w * sf), trunc_fast (of_uint63 h * sf) with
  | Some w', Some h' =>
      (w' <=? max_size)%uint63 && (h' <=? max_size)%uint63
      && (hi * w' <=? max_size * w)%uint63
      && (max_size * w <? hi * (w' + 2))%uint63
      && (hi * h' <=? max_size * h)%uint63
      && (max_size * h <? hi * (h' + 2))%uint63
  | _, _ => false
  end.

(** The luminance whose rounded index is [L - 1 - i]: a preimage of the
    position [i] under the mapper. *)
Definition luminance_of_position (i : Z) : Z :=
  round_half_up ((Py.len DENSITY_STRING - 1 - i) * 255)
    (Py.len DENSITY_STRING - 1).

(** The stages of [main] that come before the first drawing: loading,
    resizing, contrast enhancement and luminance extraction of the whole
    batch. *)
Definition prepare (listdir : Py.str -> result (list Py.str))
  (lower : Py.str -> Py.str) (open_rgb : Py.str -> result Image)
  (resize : Image -> Z * Z -> result Image)
  (enhance : Image -> float -> result Image)
  : result (list Py.str * list Image * list (list Z)) :=
  ' (file_names, original_images) <-
      load_images_from_directory listdir lower open_rgb INPUT_DIRECTORY ;;
  resized_images <-
    comprehension (fun image => resize_image resize image MAX_SIZE)
      original_images ;;
  contrasted_images <-
    for_ resized_images
      (fun image contrasted_images =>
         enhanced_image <- enhance image ENHANCEMENT_FACTOR ;;
         ret (contrasted_images ++ [enhanced_image]))
      [] ;;
  luminance_data <-
    comprehension rgb_to_luminance (map get_pixel_data contrasted_images) ;;
  ret (file_names, contrasted_images, luminance_data).

(** The body of the rendering loop of [main]. *)
Definition render_body (save : Drawing -> result unit)
  (file_names : list Py.str)
  (contrasted_images : list Image) (luminance_data : list (list Z))
  (i : Z) (_ : option Py.str) : io (option Py.str) :=
  l <~ lift (Py.getitem luminance_data i) ;;
  c <~ lift (Py.getitem contrasted_images i) ;;
  n <~ lift (Py.getitem file_names i) ;;
  saved <~ create_svg save l (size c) (Py.split_head 46 n) ;;
  io_ret (Some saved).

(** The rendering loop of [main] and the final [print]. *)
Definition render_all (save : Drawing -> result unit)
  (file_names : list Py.str)
  (contrasted_images : list Image) (luminance_data : list (list Z))
  : io unit :=
  file_name <~
    io_for (Py.range (Py.len luminance_data))
      (render_body save file_names contrasted_images luminance_data) None ;;
  match file_name with
  | Some saved =>
      emit (Printed (Py.of_string "Saved file: " ++ saved))
  | None => lift (raise (UnboundLocalError "file_name"))
  end.

(** The path that the rendering loop leaves in [file_name]: that of the
    last file name, or what was there when there is none. *)
Fixpoint last_saved (file_name : option Py.str) (file_names : list Py.str)
  : option Py.str :=
  match file_names with
  | [] => file_name
  | n :: file_names' =>
      last_saved (Some (output_path (Py.split_head 46 n))) file_names'
  end.

(** The rendering loop of [main] as the file system sees it: the drawings
    are written in order and the first write that raises ends the loop;
    [file_name] is the loop-carried path of the last drawing written. *)
Fixpoint write_all (save : Drawing -> result unit) (dwgs : list Drawing)
  (file_name : option Py.str) : io (option Py.str) :=
  match dwgs with
  | [] => io_ret file_name
  | dwg :: dwgs' =>
      saved <~ written save dwg ;; write_all save dwgs' (Some saved)
  end.

(** What [main] saves for the image [c] loaded from the file [n]. *)
Definition drawing_of (n : Py.str) (c : Image) (dwg : Drawing) : Prop :=
  filename dwg = output_path (Py.split_head 46 n)
  /\ dsize dwg = (SCALE_FACTOR * fst (size c), SCALE_FACTOR * snd (size c))
  /\ Py.len (texts dwg) = fst (size c) * snd (size c).

(** A sample batch: two thin strips. *)
Definition strip : Image := mkImage (200, 1) (repeat (0, 0, 0) 200).

Definition strips_listing : list Py.str :=
  [Py.of_string "photo.PNG"; Py.of_string "scan.v2.jpeg"].

Definition listdir_strips (_ : Py.str) : result (list Py.str) :=
  ret strips_listing.

Definition open_strip (_ : Py.str) : result Image := ret strip.

(** A decoder that finds an empty image. *)
Definition open_empty (_ : Py.str) : result Image := ret (mkImage (0, 0) []).

(** * Properties *)

(** ** Bounded quantifiers *)

Lemma forall_below_spec (n : nat) (p : Z -> bool) :
  forall_below n p = true ->
  forall z, 0 <= z < Z.of_nat n -> p z = true.
Proof.
  induction n as [|k IH]; intros Hall z Hz.
  - simpl in Hz. lia.
  - cbn [forall_below] in Hall. apply andb_prop in Hall as [Hk Hrest].
    destruct (Z.eq_dec z (Z.of_nat k)) as [->|Hne]; [exact Hk|].
    apply IH; [exact Hrest|lia].
Qed.

Lemma all_from_spec (n : nat) (p : int -> bool) :
  forall i, all_from n i p = true ->
  to_Z i + Z.of_nat n <= wB ->
  forall j, to_Z i <= to_Z j < to_Z i + Z.of_nat n -> p j = true.
Proof.
  induction n as [|k IH]; intros i Hall Hfit j Hj.
  - simpl in Hj. lia.
  - cbn [all_from] in Hall. apply andb_prop in Hall as [Hi Hrest].
    destruct (Z.eq_dec (to_Z j) (to_Z i)) as [Heq|Hne].
    + apply to_Z_inj in Heq. subst j. exact Hi.
    + assert (Hs : to_Z (i + 1)%uint63 = to_Z i + 1).
      { rewrite Uint63.add_spec, to_Z_1. apply Z.mod_small.
        pose proof (to_Z_bounded i). lia. }
      apply (IH (i + 1)%uint63 Hrest); rewrite Hs; lia.
Qed.

Lemma to_Z_of_Z_small (z : Z) : 0 <= z < wB -> to_Z (of_Z z) = z.
Proof. intros Hz. rewrite of_Z_spec. apply Z.mod_small. exact Hz. Qed.

(** ** Truncation *)

Lemma trunc_fast_sound (f : float) (v : int) :
  trunc_fast f = Some v -> Py.float_trunc f = inr (to_Z v).
Proof.
  unfold trunc_fast, Py.float_trunc.
  destruct (is_nan f); [discriminate|].
  destruct (is_infinity f); [discriminate|].
  destruct (frshiftexp (abs f)) as [m e].
  destruct (e <=? 2154)%uint63; [|discriminate].
  destruct (f <? 0)%float; [discriminate|].
  intros [= <-]. reflexivity.
Qed.

(** [Py.float_trunc] is truncation toward zero of the number that the
    binary64 specification assigns to the float. *)

Lemma is_nan_spec (f : float) :
  is_nan f = match Prim2SF f with S754_nan => true | _ => false end.
Proof.
  unfold is_nan. rewrite FloatAxioms.eqb_spec.
  destruct (Prim2SF f) as [s|s| |s m e]; try reflexivity.
  - destruct s; reflexivity.
  - unfold SFeqb, SFcompare.
    change (Pos.compare_cont Eq m m) with (Pos.compare m m).
    destruct s; rewrite Z.compare_refl, Pos.compare_refl; reflexivity.
Qed.

Lemma is_infinity_spec (f : float) :
  is_infinity f = match Prim2SF f with S754_infinity _ => true | _ => false end.
Proof.
  unfold is_infinity. rewrite FloatAxioms.eqb_spec, abs_spec.
  change (Prim2SF infinity) with (S754_infinity false).
  destruct (Prim2SF f) as [s|s| |s m e]; reflexivity.
Qed.

Lemma ltb_zero_spec (f : float) :
  (f <? 0)%float = match Prim2SF f with
                   | S754_finite s _ _ => s
                   | S754_infinity s => s
                   | _ => false
                   end.
Proof.
  rewrite FloatAxioms.ltb_spec. change (Prim2SF 0) with (S754_zero false).
  destruct (Prim2SF f) as [s|s| |s m e]; try reflexivity; destruct s; reflexivity.
Qed.

Lemma iter_xO (p : positive) (m : positive) :
  Zpos (Pos.iter xO m p) = Zpos m * 2 ^ Zpos p.
Proof.
  revert m. induction p using Pos.peano_ind; intros m.
  - cbn [Pos.iter]. lia.
  - rewrite Pos.iter_succ. rewrite Pos2Z.inj_succ, Z.pow_succ_r by lia.
    change (Zpos (Pos.iter xO m p)~0) with (2 * Zpos (Pos.iter xO m p)).
    rewrite IHp. lia.
Qed.

Lemma SFfrexp_finite (mx : positive) (ex : Z) :
  exists m' d,
    SFfrexp prec emax (S754_finite false mx ex)
    = (S754_finite false m' (- prec), ex + prec - d)
    /\ 0 <= d /\ Zpos m' = Zpos mx * 2 ^ d.
Proof.
  unfold SFfrexp.
  destruct (Z.leb_spec prec (Zpos (SpecFloat.digits2_pos mx))) as [Hle|Hlt].
  - exists mx, 0. rewrite Z.sub_0_r, Z.mul_1_r. repeat split. lia.
  - exists (Pos.iter xO mx (Z.to_pos (prec - Zpos (SpecFloat.digits2_pos mx)))),
      (prec - Zpos (SpecFloat.digits2_pos mx)).
    split; [reflexivity|]. split; [lia|].
    rewrite iter_xO, Z2Pos.id by lia. reflexivity.
Qed.

Lemma float_trunc_spec (f : float) :
  Py.float_trunc f = SF_trunc (Prim2SF f).
Proof.
  unfold Py.float_trunc.
  rewrite is_nan_spec, is_infinity_spec, ltb_zero_spec.
  pose proof (frshiftexp_spec (abs f)) as Hfr.
  rewrite FloatAxioms.abs_spec in Hfr.
  destruct (frshiftexp (abs f)) as [m e].
  pose proof (normfr_mantissa_spec m) as Hn.
  destruct (Prim2SF f) as [s|s| |s mx ex]; try reflexivity.
  - cbn [SFabs SFfrexp] in Hfr. injection Hfr as Hm He. rewrite Hm in Hn.
    change (to_Z (normfr_mantissa m) = 0) in Hn.
    cbn [SF_trunc]. unfold ret. f_equal.
    destruct (lebP e 2154) as [Hle|Hgt].
    + rewrite lsr_spec, Hn. reflexivity.
    + rewrite Hn. apply Z.shiftl_0_l.
  - cbn [SFabs] in Hfr.
    destruct (SFfrexp_finite mx ex) as (m' & d & Hfrexp & Hd & Hm').
    rewrite Hfrexp in Hfr. injection Hfr as Hm He.
    rewrite Hm in Hn.
    change (to_Z (normfr_mantissa m) = Zpos m') in Hn.
    rewrite Hm' in Hn.
    unfold shift, prec in He.
    cbn [SF_trunc]. unfold ret. f_equal.
    pose proof (to_Z_bounded e) as Hbe.
    assert (Hz : (if (e <=? 2154)%uint63
                  then to_Z (normfr_mantissa m >> (2154 - e))
                  else Z.shiftl (to_Z (normfr_mantissa m)) (to_Z e - 2154))
                 = (if 0 <=? ex then Zpos mx * 2 ^ ex
                    else Zpos mx / 2 ^ (- ex))).
    { destruct (lebP e 2154) as [Hle|Hgt]; change (to_Z 2154) with 2154 in *.
      - rewrite lsr_spec, Hn, Uint63.sub_spec.
        change (to_Z 2154) with 2154.
        rewrite (Z.mod_small (2154 - to_Z e))
          by (change wB with 9223372036854775808; lia).
        replace (2154 - to_Z e) with (d - ex) by lia.
        destruct (Z.leb_spec 0 ex) as [Hex|Hex].
        + replace d with (ex + (d - ex)) at 1 by lia.
          rewrite Z.pow_add_r, Z.mul_assoc by lia.
          apply Z.div_mul. apply Z.pow_nonzero; lia.
        + replace (d - ex) with (- ex + d) by lia.
          rewrite Z.pow_add_r by lia.
          apply Z.div_mul_cancel_r; apply Z.pow_nonzero; lia.
      - rewrite Hn, Z.shiftl_mul_pow2 by lia.
        destruct (Z.leb_spec 0 ex) as [Hex|Hex]; [|lia].
        rewrite <- Z.mul_assoc, <- Z.pow_add_r by lia.
        f_equal. f_equal. lia. }
    rewrite Hz. reflexivity.
Qed.

(** ** Conversions and quotients of small integers

    On the integers that the pipeline meets, the conversion to [float] and
    the quotient of two [int]s, defined above from the binary64
    specification, are the machine's conversion and division. *)

Lemma float_of_int_small (z : Z) :
  0 <= z <= SIDE_BOUND -> Py.float_of_int z = inr (of_uint63 (of_Z z)).
Proof.
  intros Hz.
  assert (Hall : forall_below 2049 float_of_int_agrees = true)
    by (vm_compute; reflexivity).
  assert (H : float_of_int_agrees z = true).
  { apply (forall_below_spec _ _ Hall).
    change (Z.of_nat 2049) with (SIDE_BOUND + 1). lia. }
  unfold float_of_int_agrees in H.
  destruct (Py.float_of_int z) as [e|f]; [discriminate H|].
  f_equal. apply FloatAxioms.Leibniz.eqb_spec. exact H.
Qed.

Lemma int_truediv_small (w : Z) :
  1 <= w <= SIDE_BOUND ->
  Py.int_truediv MAX_SIZE w = inr (of_uint63 200 / of_uint63 (of_Z w))%float.
Proof.
  intros Hw.
  assert (Hall : forall_below 2049
                   (fun z => (z =? 0) || int_truediv_agrees MAX_SIZE z) = true)
    by (vm_compute; reflexivity).
  assert (H : (w =? 0) || int_truediv_agrees MAX_SIZE w = true).
  { apply (forall_below_spec _ _ Hall).
    change (Z.of_nat 2049) with (SIDE_BOUND + 1). lia. }
  destruct (Z.eqb_spec w 0) as [->|_]; [lia|].
  cbn [orb] in H. unfold int_truediv_agrees in H.
  destruct (Py.int_truediv MAX_SIZE w) as [e|f]; [discriminate H|].
  f_equal. apply FloatAxioms.Leibniz.eqb_spec. exact H.
Qed.

Lemma int_truediv_8bit (v : Z) :
  0 <= v <= 255 ->
  Py.int_truediv v 255 = inr (of_uint63 (of_Z v) / of_uint63 255)%float.
Proof.
  intros Hv.
  assert (Hall : forall_below 256 (fun z => int_truediv_agrees z 255) = true)
    by (vm_compute; reflexivity).
  assert (H : int_truediv_agrees v 255 = true).
  { apply (forall_below_spec _ _ Hall).
    change (Z.of_nat 256) with 256. lia. }
  unfold int_truediv_agrees in H.
  destruct (Py.int_truediv v 255) as [e|f]; [discriminate H|].
  f_equal. apply FloatAxioms.Leibniz.eqb_spec. exact H.
Qed.

(** ** The brightness mapper *)

Lemma mapper_index (v : Z) :
  0 <= v <= 255 ->
  luminance_to_ascii_char v
  = inr (PyInt (Py.len DENSITY_STRING - 1
                - round_half_up (v * (Py.len DENSITY_STRING - 1)) 255)).
Proof.
  intros Hv.
  assert (Hall : forall_below 256 mapper_agrees = true)
    by (vm_compute; reflexivity).
  assert (H : mapper_agrees v = true).
  { apply (forall_below_spec _ _ Hall).
    change (Z.of_nat 256) with 256. lia. }
  unfold mapper_agrees in H.
  destruct (luminance_to_ascii_char v) as [e|[i|s]]; try discriminate H.
  do 2 f_equal. apply Z.eqb_eq. exact H.
Qed.

(** ** Luminance of one pixel *)

Lemma int_ltb_false (x y : int) : (x <? y)%uint63 = false -> to_Z y <= to_Z x.
Proof. destruct (ltbP x y); [discriminate|lia]. Qed.

Lemma int_leb_false (x y : int) : (x <=? y)%uint63 = false -> to_Z y < to_Z x.
Proof. destruct (lebP x y); [discriminate|lia]. Qed.

Ltac int_to_Z :=
  repeat match goal with
    | H : (_ && _) = true |- _ => apply andb_prop in H; destruct H
    | H : (_ <=? _)%uint63 = true |- _ => apply Uint63.leb_spec in H
    | H : (_ <? _)%uint63 = true |- _ => apply Uint63.ltb_spec in H
    | H : (_ <=? _)%uint63 = false |- _ => apply int_leb_false in H
    | H : (_ <? _)%uint63 = false |- _ => apply int_ltb_false in H
    end.

Lemma lum_all :
  all_from 256 0
    (fun r =>
       let x := (0.299 * of_uint63 r)%float in
       let s := (299 * r)%uint63 in
       all_from 256 0
         (fun g =>
            let xy := (x + 0.587 * of_uint63 g)%float in
            let sg := (s + 587 * g)%uint63 in
            all_from 256 0 (lum_ok_from xy sg))) = true.
Proof. vm_compute. reflexivity. Qed.

Lemma lum_ok_sound (r g b : int) :
  to_Z r <= 255 -> to_Z g <= 255 -> to_Z b <= 255 ->
  lum_ok r g b = true ->
  exists v, Py.float_trunc (lum_float r g b) = inr v
            /\ 0 <= v <= 255
            /\ 1000 * v <= 299 * to_Z r + 587 * to_Z g + 114 * to_Z b
               < 1000 * v + 2000.
Proof.
  intros Hr Hg Hb Hok. unfold lum_ok in Hok.
  destruct (trunc_fast (lum_float r g b)) as [v|] eqn:Hv; [|discriminate].
  apply trunc_fast_sound in Hv.
  exists (to_Z v). split; [exact Hv|].
  int_to_Z.
  pose proof (to_Z_bounded r). pose proof (to_Z_bounded g).
  pose proof (to_Z_bounded b). pose proof (to_Z_bounded v).
  change (to_Z 255) with 255 in *.
  assert (Hs : to_Z (299 * r + 587 * g + 114 * b)%uint63
               = 299 * to_Z r + 587 * to_Z g + 114 * to_Z b).
  { rewrite !Uint63.add_spec, !Uint63.mul_spec.
    change (to_Z 299) with 299. change (to_Z 587) with 587.
    change (to_Z 114) with 114. change wB with 9223372036854775808 in *.
    rewrite (Z.mod_small (299 * to_Z r)) by lia.
    rewrite (Z.mod_small (587 * to_Z g)) by lia.
    rewrite (Z.mod_small (114 * to_Z b)) by lia.
    rewrite (Z.mod_small (299 * to_Z r + 587 * to_Z g)) by lia.
    apply Z.mod_small. lia. }
  assert (Hm : to_Z (1000 * v)%uint63 = 1000 * to_Z v).
  { rewrite Uint63.mul_spec. change (to_Z 1000) with 1000.
    change wB with 9223372036854775808 in *. apply Z.mod_small. lia. }
  assert (Hm2 : to_Z (1000 * v + 2000)%uint63 = 1000 * to_Z v + 2000).
  { rewrite Uint63.add_spec, Hm. change (to_Z 2000) with 2000.
    change wB with 9223372036854775808 in *. apply Z.mod_small. lia. }
  rewrite Hs, Hm in *. rewrite Hm2 in *. lia.
Qed.

Lemma luminance_exact_quot (r g b : Z) :
  luminance_exact (r, g, b) = (299 * r + 587 * g + 114 * b) / 1000.
Proof.
  unfold luminance_exact.
  assert (E : (0.299 * inject_Z r + 0.587 * inject_Z g + 0.114 * inject_Z b
               == (299 * r + 587 * g + 114 * b) # 1000)%Q).
  { unfold Qeq, inject_Z. cbn. lia. }
  rewrite E. reflexivity.
Qed.

Lemma luminance_8bit (p : rgb) :
  channels_8bit p ->
  exists v, luminance p = inr v
            /\ 0 <= v <= 255
            /\ (v = luminance_exact p \/ v = luminance_exact p - 1).
Proof.
  destruct p as [[r g] b]. intros (Hr & Hg & Hb).
  assert (Hok : lum_ok (of_Z r) (of_Z g) (of_Z b) = true).
  { pose proof lum_all as Hall.
    assert (H0 : to_Z 0 = 0) by reflexivity.
    assert (HwB : 256 <= wB) by (change wB with 9223372036854775808; lia).
    assert (Hin : forall z, 0 <= z <= 255 ->
                    to_Z 0 <= to_Z (of_Z z) < to_Z 0 + Z.of_nat 256).
    { intros z Hz. rewrite to_Z_of_Z_small by lia.
      change (Z.of_nat 256) with 256. lia. }
    assert (Hfit : to_Z 0 + Z.of_nat 256 <= wB)
      by (change (Z.of_nat 256) with 256; lia).
    pose proof (all_from_spec _ _ _ Hall Hfit (of_Z r) (Hin r Hr)) as Hg'.
    cbv beta zeta in Hg'.
    pose proof (all_from_spec _ _ _ Hg' Hfit (of_Z g) (Hin g Hg)) as Hb'.
    cbv beta zeta in Hb'.
    exact (all_from_spec _ _ _ Hb' Hfit (of_Z b) (Hin b Hb)). }
  assert (HwB : 256 <= wB) by (change wB with 9223372036854775808; lia).
  apply lum_ok_sound in Hok; try (rewrite to_Z_of_Z_small; lia).
  destruct Hok as (v & Hv & Hrange & Hexact).
  rewrite !to_Z_of_Z_small in Hexact by lia.
  exists v. split; [|split; [exact Hrange|]].
  - unfold luminance, Py.float_mul_int.
    assert (SB : SIDE_BOUND = 2048) by reflexivity.
    rewrite !float_of_int_small by lia. exact Hv.
  - rewrite luminance_exact_quot.
    assert (Hd : (299 * r + 587 * g + 114 * b) / 1000 = v
                 \/ (299 * r + 587 * g + 114 * b) / 1000 = v + 1).
    { pose proof (Z.div_mod (299 * r + 587 * g + 114 * b) 1000).
      pose proof (Z.mod_pos_bound (299 * r + 587 * g + 114 * b) 1000).
      lia. }
    lia.
Qed.

(** ** The resize arithmetic on bounded sides *)

Lemma resize_all :
  all_from 2048 1 (fun w => all_from 2048 1 (resize_ok 200 w)) = true.
Proof. vm_compute. reflexivity. Qed.

Lemma resize_ok_bounded (w h : Z) :
  1 <= w <= SIDE_BOUND -> 1 <= h <= SIDE_BOUND ->
  resize_ok 200 (of_Z w) (of_Z h) = true.
Proof.
  unfold SIDE_BOUND. intros Hw Hh.
  assert (HwB : 4096 <= wB) by (change wB with 9223372036854775808; lia).
  assert (Hfit : to_Z 1 + Z.of_nat 2048 <= wB)
    by (change (Z.of_nat 2048) with 2048; change (to_Z 1) with 1; lia).
  assert (Hin : forall z, 1 <= z <= 2048 ->
                  to_Z 1 <= to_Z (of_Z z) < to_Z 1 + Z.of_nat 2048).
  { intros z Hz. rewrite to_Z_of_Z_small by lia.
    change (Z.of_nat 2048) with 2048. change (to_Z 1) with 1. lia. }
  pose proof (all_from_spec _ _ _ resize_all Hfit (of_Z w) (Hin w Hw)) as H.
  cbv beta in H.
  exact (all_from_spec _ _ _ H Hfit (of_Z h) (Hin h Hh)).
Qed.

(** X18: for sides between 1 and [SIDE_BOUND] whose longer side is at
    most [MAX_SIZE] times the shorter one, the resize arithmetic does not
    raise and both sides that the code asks the resampler for are at
    least 1. *)
Theorem new_size_positive (w h : Z) :
  1 <= w <= SIDE_BOUND -> 1 <= h <= SIDE_BOUND ->
  Z.max w h <= MAX_SIZE * Z.min w h ->
  exists w' h', new_size (w, h) MAX_SIZE = inr (w', h') /\ 1 <= w' /\ 1 <= h'.
Proof.
  intros Hw Hh Hasp.
  pose proof (resize_ok_bounded w h Hw Hh) as Hok.
  assert (SB : SIDE_BOUND = 2048) by reflexivity.
  assert (MS : MAX_SIZE = 200) by reflexivity.
  assert (HwB : wB = 9223372036854775808) by reflexivity.
  assert (Hmul : forall z, 1 <= z <= 2048 ->
                   to_Z (200 * of_Z z)%uint63 = 200 * z).
  { intros z Hz. rewrite Uint63.mul_spec, to_Z_of_Z_small by lia.
    change (to_Z 200) with 200. apply Z.mod_small. lia. }
  unfold resize_ok, scale_float in Hok.
  unfold new_size, Py.int_mul_float.
  rewrite Z.gtb_ltb.
  destruct (ltbP (of_Z h) (of_Z w)) as [Hlt|Hge];
    rewrite !to_Z_of_Z_small in * by lia.
  - destruct (Z.ltb_spec h w) as [_|Hc]; [|lia].
    rewrite int_truediv_small by lia. cbn [bind].
    rewrite !float_of_int_small by lia. cbn [bind ret].
    destruct (lebP (of_Z w) (200 * of_Z h)%uint63) as [_|Hn].
    2:{ exfalso. apply Hn. rewrite Hmul, to_Z_of_Z_small by lia. lia. }
    destruct (trunc_fast (of_uint63 (of_Z w) * (of_uint63 200 / of_uint63 (of_Z w))))
      as [a|] eqn:Ha; [|discriminate].
    destruct (trunc_fast (of_uint63 (of_Z h) * (of_uint63 200 / of_uint63 (of_Z w))))
      as [b|] eqn:Hb; [|discriminate].
    apply trunc_fast_sound in Ha, Hb. rewrite Ha. cbn [bind]. rewrite Hb.
    cbn [bind]. int_to_Z. change (to_Z 1) with 1 in *.
    exists (to_Z a), (to_Z b). repeat split; assumption.
  - destruct (Z.ltb_spec h w) as [Hc|_]; [lia|].
    rewrite int_truediv_small by lia. cbn [bind].
    rewrite !float_of_int_small by lia. cbn [bind ret].
    destruct (lebP (of_Z h) (200 * of_Z w)%uint63) as [_|Hn].
    2:{ exfalso. apply Hn. rewrite Hmul, to_Z_of_Z_small by lia. lia. }
    destruct (trunc_fast (of_uint63 (of_Z w) * (of_uint63 200 / of_uint63 (of_Z h))))
      as [a|] eqn:Ha; [|discriminate].
    destruct (trunc_fast (of_uint63 (of_Z h) * (of_uint63 200 / of_uint63 (of_Z h))))
      as [b|] eqn:Hb; [|discriminate].
    apply trunc_fast_sound in Ha, Hb. rewrite Ha. cbn [bind]. rewrite Hb.
    cbn [bind]. int_to_Z. change (to_Z 1) with 1 in *.
    exists (to_Z a), (to_Z b). repeat split; assumption.
Qed.

Lemma new_size_positive_witness :
  1 <= 300 <= SIDE_BOUND /\ 1 <= 200 <= SIDE_BOUND
  /\ Z.max 300 200 <= MAX_SIZE * Z.min 300 200
  /\ exists w' h',
       new_size (300, 200) MAX_SIZE = inr (w', h') /\ 1 <= w' /\ 1 <= h'.
Proof.
  assert (SB : SIDE_BOUND = 2048) by reflexivity.
  assert (MS : MAX_SIZE = 200) by reflexivity.
  split; [lia|]. split; [lia|]. split; [lia|].
  apply (new_size_positive 300 200); lia.
Defined.

(** ** Loops and comprehensions *)

Lemma comprehension_inr {A B : Type} (f : A -> result B) :
  forall l bs, comprehension f l = inr bs ->
               Forall2 (fun a b => f a = inr b) l bs.
Proof.
  induction l as [|a l IH]; cbn [comprehension]; intros bs H.
  - injection H as <-. constructor.
  - destruct (f a) as [e|b] eqn:Hb; cbn [bind] in H; [discriminate|].
    destruct (comprehension f l) as [e|bs'] eqn:Hbs; cbn [bind] in H;
      [discriminate|].
    injection H as <-. constructor; [exact Hb|]. apply IH. reflexivity.
Qed.

Lemma comprehension_total {A B : Type} (f : A -> result B) :
  forall l, (forall a, In a l -> exists b, f a = inr b) ->
            exists bs, comprehension f l = inr bs.
Proof.
  induction l as [|a l IH]; cbn [comprehension]; intros H.
  - eexists. reflexivity.
  - destruct (H a (or_introl eq_refl)) as [b ->].
    destruct IH as [bs ->]; [intros x Hx; apply H; right; exact Hx|].
    eexists. reflexivity.
Qed.

Lemma comprehension_length {A B : Type} (f : A -> result B) (l : list A)
  (bs : list B) :
  comprehension f l = inr bs -> length bs = length l.
Proof.
  intros H. apply comprehension_inr in H.
  symmetry. exact (Forall2_length H).
Qed.

Lemma Forall2_nth_error {A B : Type} (R : A -> B -> Prop) :
  forall l l', Forall2 R l l' ->
  forall i a, nth_error l i = Some a ->
              exists b, nth_error l' i = Some b /\ R a b.
Proof.
  induction 1 as [|x y l l' Hxy _ IH]; intros [|i] a Hi;
    cbn [nth_error] in *; try discriminate.
  - injection Hi as <-. exists y. split; [reflexivity|exact Hxy].
  - apply IH. exact Hi.
Qed.

(** A loop that only adds primitives to the drawing adds the primitives of
    the corresponding comprehension. *)
Lemma for_add {A : Type} (g : A -> result element) :
  forall l dwg,
    for_ l (fun a d => t <- g a ;; ret (add d t)) dwg
    = (ts <- comprehension g l ;;
       ret (mkDrawing (filename dwg) (dsize dwg) (profile dwg)
              (elements dwg ++ ts))).
Proof.
  induction l as [|a l IH]; intros dwg; cbn [for_ comprehension bind ret].
  - rewrite app_nil_r. destruct dwg; reflexivity.
  - destruct (g a) as [e|t]; cbn [bind ret]; [reflexivity|].
    rewrite IH. destruct (comprehension g l) as [e|ts]; cbn [bind ret];
      [reflexivity|].
    unfold add; cbn [filename dsize profile elements].
    rewrite <- app_assoc. reflexivity.
Qed.

Lemma for_for_add {A B : Type} (g : A -> B -> result element) (xs : list B) :
  forall ys dwg,
    for_ ys (fun y d => for_ xs (fun x d' => t <- g y x ;; ret (add d' t)) d)
      dwg
    = (rows <- comprehension (fun y => comprehension (g y) xs) ys ;;
       ret (mkDrawing (filename dwg) (dsize dwg) (profile dwg)
              (elements dwg ++ concat rows))).
Proof.
  induction ys as [|y ys IH]; intros dwg; cbn [for_ comprehension bind ret].
  - cbn [concat]. rewrite app_nil_r. destruct dwg; reflexivity.
  - rewrite for_add.
    destruct (comprehension (g y) xs) as [e|row]; cbn [bind ret];
      [reflexivity|].
    rewrite IH. cbn [filename dsize profile elements].
    destruct (comprehension (fun y0 => comprehension (g y0) xs) ys)
      as [e|rows]; cbn [bind ret]; [reflexivity|].
    cbn [concat]. rewrite <- app_assoc. reflexivity.
Qed.

(** ** Ranges and row-major grids *)

Lemma range_length (n : Z) : length (Py.range n) = Z.to_nat n.
Proof. unfold Py.range. rewrite length_map, length_seq. reflexivity. Qed.

Lemma range_nth (n z : Z) :
  0 <= z < n -> nth_error (Py.range n) (Z.to_nat z) = Some z.
Proof.
  intros Hz. unfold Py.range.
  rewrite nth_error_map, nth_error_seq.
  destruct (Nat.ltb_spec (Z.to_nat z) (Z.to_nat n)) as [_|Hc]; [|lia].
  cbn. f_equal. lia.
Qed.

Lemma range_In (n z : Z) : In z (Py.range n) -> 0 <= z < n.
Proof.
  unfold Py.range. rewrite in_map_iff. intros (k & <- & Hk).
  apply in_seq in Hk. lia.
Qed.

Lemma concat_nth_row {A : Type} (n : nat) :
  forall (rows : list (list A)) i j row,
    Forall (fun r => length r = n) rows ->
    nth_error rows i = Some row -> (j < n)%nat ->
    nth_error (concat rows) (i * n + j) = nth_error row j.
Proof.
  induction rows as [|r rows IH]; intros [|i] j row Hlen Hi Hj;
    cbn [nth_error] in Hi; try discriminate; cbn [concat].
  - injection Hi as ->. inversion Hlen; subst.
    cbn. apply nth_error_app1. lia.
  - inversion Hlen as [|? ? Hr Hrest]; subst.
    rewrite nth_error_app2 by (cbn; lia).
    replace (S i * length r + j - length r)%nat with (i * length r + j)%nat
      by (cbn; lia).
    apply (IH i j row Hrest Hi Hj).
Qed.

Lemma concat_length_rows {A : Type} (n : nat) :
  forall rows : list (list A),
    Forall (fun r => length r = n) rows ->
    length (concat rows) = (length rows * n)%nat.
Proof.
  induction 1 as [|r rows Hr _ IH]; cbn [concat length]; [reflexivity|].
  rewrite length_app, IH, Hr. cbn. lia.
Qed.

(** ** The grid renderer *)

Lemma cell_text_ok (luminance_data : list Z) (w h cell y x : Z) :
  luminance_buffer luminance_data ->
  Py.len luminance_data = w * h ->
  0 <= x < w -> 0 <= y < h ->
  exists v c,
    nth_error luminance_data (Z.to_nat (y * w + x)) = Some v
    /\ luminance_to_ascii_char v = inr c
    /\ cell_text luminance_data w cell y x
       = inr (glyph c (x * cell + cell / 2) (y * cell + cell / 2) cell).
Proof.
  intros Hbuf Hlen Hx Hy. unfold Py.len in Hlen.
  assert (Hidx : 0 <= y * w + x < w * h) by nia.
  destruct (nth_error luminance_data (Z.to_nat (y * w + x))) as [v|] eqn:Hv.
  2:{ apply nth_error_None in Hv. lia. }
  assert (Hv255 : 0 <= v <= 255).
  { unfold luminance_buffer in Hbuf. rewrite Forall_forall in Hbuf.
    apply Hbuf. eapply nth_error_In. exact Hv. }
  exists v. eexists. split; [reflexivity|]. split; [apply mapper_index; exact Hv255|].
  unfold cell_text, Py.getitem.
  destruct (Z.ltb_spec (y * w + x) 0) as [Hc|_]; [lia|].
  destruct (Z.ltb_spec (y * w + x) 0) as [Hc|_]; [lia|].
  rewrite Hv. cbn [bind ret]. rewrite mapper_index by exact Hv255.
  reflexivity.
Qed.

Lemma create_svg_grid (luminance_data : list Z) (w h : Z) (name : Py.str) :
  luminance_buffer luminance_data ->
  0 <= w -> 0 <= h -> Py.len luminance_data = w * h ->
  exists rows,
    comprehension
      (fun y => comprehension
                  (cell_text luminance_data w (cell_size_of (w, h)) y)
                  (Py.range w))
      (Py.range h) = inr rows
    /\ forall save tr,
         create_svg save luminance_data (w, h) name tr
         = written save
             (mkDrawing (output_path name)
                (SCALE_FACTOR * w, SCALE_FACTOR * h)
                (Py.of_string "full")
                (background :: concat rows)) tr.
Proof.
  intros Hbuf Hw Hh Hlen.
  destruct (comprehension_total
              (fun y => comprehension
                          (cell_text luminance_data w (cell_size_of (w, h)) y)
                          (Py.range w))
              (Py.range h)) as [rows Hrows].
  { intros y Hy. apply range_In in Hy.
    apply comprehension_total. intros x Hx. apply range_In in Hx.
    destruct (cell_text_ok luminance_data w h (cell_size_of (w, h)) y x
                Hbuf Hlen Hx Hy) as (v & c & _ & _ & ->).
    eexists. reflexivity. }
  exists rows. split; [exact Hrows|].
  intros save tr. unfold create_svg, written, io_bind, lift, emit, io_ret.
  fold (output_path name).
  change (Z.max (SCALE_FACTOR * w) (SCALE_FACTOR * h))
    with (cell_size_of (w, h)).
  rewrite (for_for_add (cell_text luminance_data w (cell_size_of (w, h)))).
  rewrite Hrows. cbn [bind ret filename].
  destruct (save _); reflexivity.
Qed.

Lemma cell_text_is_text (luminance_data : list Z) (w cell y x : Z)
  (t : element) :
  cell_text luminance_data w cell y x = inr t -> is_text t = true.
Proof.
  unfold cell_text.
  destruct (Py.getitem luminance_data (y * w + x)) as [e|v]; cbn [bind];
    [discriminate|].
  destruct (luminance_to_ascii_char v) as [e|c]; cbn [bind ret];
    [discriminate|].
  intros [= <-]. reflexivity.
Qed.

Lemma filter_all {A : Type} (p : A -> bool) (l : list A) :
  Forall (fun a => p a = true) l -> filter p l = l.
Proof.
  induction 1 as [|a l Ha _ IH]; cbn [filter]; [reflexivity|].
  rewrite Ha, IH. reflexivity.
Qed.

Section Grid.

Variables (g : Z -> Z -> result element) (w h : Z) (rows : list (list element)).
Hypothesis Hw : 0 <= w.
Hypothesis Hh : 0 <= h.
Hypothesis Hrows :
  comprehension (fun y => comprehension (g y) (Py.range w)) (Py.range h)
  = inr rows.

Lemma grid_rows : Forall (fun r => length r = Z.to_nat w) rows.
Proof.
  apply comprehension_inr in Hrows.
  induction Hrows as [|y row ys rows' Hrow _ IH]; constructor; [|exact IH].
  apply comprehension_length in Hrow. rewrite Hrow. apply range_length.
Qed.

Lemma grid_length : length (concat rows) = Z.to_nat (w * h).
Proof.
  rewrite (concat_length_rows _ _ grid_rows).
  rewrite (comprehension_length _ _ _ Hrows), range_length. nia.
Qed.

Lemma grid_nth (x y : Z) :
  0 <= x < w -> 0 <= y < h ->
  exists t, g y x = inr t
            /\ nth_error (concat rows) (Z.to_nat (y * w + x)) = Some t.
Proof.
  intros Hx Hy.
  pose proof (comprehension_inr _ _ _ Hrows) as Hall.
  destruct (Forall2_nth_error _ _ _ Hall _ _ (range_nth h y Hy))
    as (row & Hrow & Hcomp).
  apply comprehension_inr in Hcomp.
  destruct (Forall2_nth_error _ _ _ Hcomp _ _ (range_nth w x Hx))
    as (t & Ht & Hg).
  exists t. split; [exact Hg|].
  replace (Z.to_nat (y * w + x)) with (Z.to_nat y * Z.to_nat w + Z.to_nat x)%nat
    by nia.
  rewrite (concat_nth_row (Z.to_nat w) rows (Z.to_nat y) (Z.to_nat x) row
             grid_rows Hrow) by lia.
  exact Ht.
Qed.

Lemma grid_all (P : element -> Prop) :
  (forall x y t, g y x = inr t -> P t) -> Forall P (concat rows).
Proof.
  intros HP. apply comprehension_inr in Hrows.
  induction Hrows as [|y row ys rows' Hrow _ IH]; cbn [concat];
    [constructor|].
  apply Forall_app. split; [|exact IH].
  apply comprehension_inr in Hrow.
  induction Hrow as [|x t xs ts Ht _ IHr]; constructor; [|exact IHr].
  exact (HP x y t Ht).
Qed.

End Grid.

Lemma scaled_even (k : Z) :
  2 * (SCALE_FACTOR * k / 2) = SCALE_FACTOR * k.
Proof.
  unfold SCALE_FACTOR. replace (10 * k) with (5 * k * 2) by lia.
  rewrite Z.div_mul by lia. lia.
Qed.

Lemma create_svg_texts (luminance_data : list Z) (w h : Z)
  (rows : list (list element)) :
  comprehension
    (fun y => comprehension
                (cell_text luminance_data w (cell_size_of (w, h)) y)
                (Py.range w))
    (Py.range h) = inr rows ->
  filter is_text (background :: concat rows) = concat rows.
Proof.
  intros Hrows. cbn [filter background is_text].
  apply filter_all.
  apply (grid_all _ w h rows Hrows).
  intros x y t Ht. exact (cell_text_is_text _ _ _ _ _ _ Ht).
Qed.

(** ** The orchestrator *)

Section PipelineFacts.

Variable listdir : Py.str -> result (list Py.str).
Variable lower : Py.str -> Py.str.
Variable open_rgb : Py.str -> result Image.
Variable resize : Image -> Z * Z -> result Image.
Variable enhance : Image -> float -> result Image.
Variable save : Drawing -> result unit.

Lemma load_loop_raises (directory : Py.str) (names : list Py.str) :
  Exists (unsupported lower) names ->
  forall acc : list Py.str * list Image,
  exists e,
    for_ names
      (fun file_name '(file_names, images) =>
         if Py.endswith (lower file_name) SUPPORTED_FORMATS then
           let file_path := Py.path_join directory file_name in
           image <- load_image open_rgb file_path ;;
           ret (file_names ++ [file_name], images ++ [image])
         else raise (TypeError "This file type is not supported."))
      acc = inl e.
Proof.
  induction 1 as [n names Hn|n names _ IH]; intros [file_names images];
    cbn [for_].
  - unfold unsupported in Hn. rewrite Hn. cbn [bind raise].
    eexists. reflexivity.
  - destruct (Py.endswith (lower n) SUPPORTED_FORMATS).
    + destruct (load_image open_rgb (Py.path_join directory n)) as [e|image];
        cbn [bind ret].
      * eexists. reflexivity.
      * apply IH.
    + cbn [bind raise]. eexists. reflexivity.
Qed.

(** C4: if the listing of the input directory has an entry whose
    lower-cased name ends in none of the supported extensions, then
    loading raises, [main] ends with that exception, and the trace of
    events is left as it was: nothing is saved, whatever else the directory
    holds and whatever the collaborators, the file writer among them,
    would do. *)
Theorem batch_aborts_on_unsupported (names : list Py.str) :
  listdir INPUT_DIRECTORY = inr names ->
  Exists (unsupported lower) names ->
  exists e,
    load_images_from_directory listdir lower open_rgb INPUT_DIRECTORY = inl e
    /\ forall tr,
         main listdir lower open_rgb resize enhance save tr = (inl e, tr).
Proof.
  intros Hdir Hbad.
  destruct (load_loop_raises INPUT_DIRECTORY names Hbad ([], [])) as [e He].
  assert (Hload : load_images_from_directory listdir lower open_rgb
                    INPUT_DIRECTORY = inl e).
  { unfold load_images_from_directory. rewrite Hdir. cbn [bind]. exact He. }
  exists e. split; [exact Hload|].
  intros tr. unfold main, io_bind, lift. rewrite Hload. reflexivity.
Qed.

End PipelineFacts.

Lemma batch_aborts_witness :
  listdir_sample INPUT_DIRECTORY = inr sample_listing
  /\ Exists (unsupported ascii_lower) sample_listing
  /\ exists e,
       load_images_from_directory listdir_sample ascii_lower open_sample
         INPUT_DIRECTORY = inl e
       /\ forall tr,
            main listdir_sample ascii_lower open_sample resize_blank
              enhance_id save_ok tr = (inl e, tr).
Proof.
  assert (Hbad : Exists (unsupported ascii_lower) sample_listing).
  { apply Exists_cons_tl, Exists_cons_hd. reflexivity. }
  split; [reflexivity|]. split; [exact Hbad|].
  apply (batch_aborts_on_unsupported listdir_sample ascii_lower open_sample
           resize_blank enhance_id save_ok sample_listing);
    [reflexivity|exact Hbad].
Defined.

(** ** The brightness mapper: what it returns *)

Lemma round_half_up_scale (v : Z) :
  0 <= v <= 255 ->
  0 <= round_half_up (v * (Py.len DENSITY_STRING - 1)) 255
    <= Py.len DENSITY_STRING - 1.
Proof.
  intros Hv. change (Py.len DENSITY_STRING) with 28. unfold round_half_up.
  split.
  - apply Z.div_pos; lia.
  - assert ((2 * (v * (28 - 1)) + 255) / (2 * 255) < 28)
      by (apply Z.div_lt_upper_bound; lia).
    lia.
Qed.

(** C1: for every luminance [v] in [[0, 255]] the mapper returns the
    integer position [L - 1 - index], with [index] the round-half-up of
    [v / 255 * (L - 1)]; the position is a valid index of the density
    string, but what is returned is that integer and never a glyph. *)
Theorem mapper_returns_position (v : Z) :
  0 <= v <= 255 ->
  exists i,
    luminance_to_ascii_char v = inr (PyInt i)
    /\ i = Py.len DENSITY_STRING - 1
           - round_half_up (v * (Py.len DENSITY_STRING - 1)) 255
    /\ 0 <= i < Py.len DENSITY_STRING
    /\ forall s, luminance_to_ascii_char v <> inr (PyStr s).
Proof.
  intros Hv. pose proof (round_half_up_scale v Hv) as Hr.
  eexists. split; [apply mapper_index; exact Hv|].
  split; [reflexivity|]. split; [lia|].
  intros s. rewrite mapper_index by exact Hv. discriminate.
Qed.

Lemma mapper_returns_position_witness :
  0 <= 128 <= 255
  /\ exists i,
       luminance_to_ascii_char 128 = inr (PyInt i)
       /\ i = Py.len DENSITY_STRING - 1
              - round_half_up (128 * (Py.len DENSITY_STRING - 1)) 255
       /\ 0 <= i < Py.len DENSITY_STRING
       /\ forall s, luminance_to_ascii_char 128 <> inr (PyStr s).
Proof.
  split; [lia|]. apply (mapper_returns_position 128). lia.
Defined.

(** Against C5 as stated: the darker input 0 receives the last glyph of the
    density string, a space, and the brighter input 255 the first, U+00D1;
    the darker input has received the less dense glyph. *)
Lemma darker_gets_sparser :
  exists i1 i2,
    luminance_to_ascii_char 0 = inr (PyInt i1)
    /\ luminance_to_ascii_char 255 = inr (PyInt i2)
    /\ Py.getitem DENSITY_STRING i1 = inr 32
    /\ Py.getitem DENSITY_STRING i2 = inr 209
    /\ less_dense i1 i2.
Proof.
  exists 27, 0.
  split; [vm_compute; reflexivity|]. split; [vm_compute; reflexivity|].
  split; [reflexivity|]. split; [reflexivity|].
  unfold less_dense. lia.
Qed.

(** C5: the mapper is antitone in scale position: for luminances
    [v1 < v2] in [[0, 255]] the position returned for [v1] is at least the
    one returned for [v2], so the glyph of the darker input is never the
    denser of the two. *)
Theorem mapper_antitone (v1 v2 : Z) :
  0 <= v1 -> v1 < v2 -> v2 <= 255 ->
  exists i1 i2,
    luminance_to_ascii_char v1 = inr (PyInt i1)
    /\ luminance_to_ascii_char v2 = inr (PyInt i2)
    /\ i2 <= i1
    /\ ~ less_dense i2 i1.
Proof.
  intros H0 Hlt H255.
  assert (Hmono : round_half_up (v1 * (Py.len DENSITY_STRING - 1)) 255
                  <= round_half_up (v2 * (Py.len DENSITY_STRING - 1)) 255).
  { change (Py.len DENSITY_STRING) with 28. unfold round_half_up.
    apply Z.div_le_mono; lia. }
  do 2 eexists. split; [apply mapper_index; lia|].
  split; [apply mapper_index; lia|].
  unfold less_dense. lia.
Qed.

Lemma mapper_antitone_witness :
  0 <= 4 /\ 4 < 5 /\ 5 <= 255
  /\ exists i1 i2,
       luminance_to_ascii_char 4 = inr (PyInt i1)
       /\ luminance_to_ascii_char 5 = inr (PyInt i2)
       /\ i2 <= i1
       /\ ~ less_dense i2 i1.
Proof.
  split; [lia|]. split; [lia|]. split; [lia|].
  apply (mapper_antitone 4 5); lia.
Defined.

(** C6: at [v = 0] the mapper returns the integer [L - 1] and at
    [v = 255] the integer [0]: the positions of the last and of the first
    glyph of the density string (a space and U+00D1), not the glyphs. *)
Theorem mapper_boundaries :
  luminance_to_ascii_char 0 = inr (PyInt (Py.len DENSITY_STRING - 1))
  /\ luminance_to_ascii_char 255 = inr (PyInt 0)
  /\ Py.getitem DENSITY_STRING (Py.len DENSITY_STRING - 1) = inr 32
  /\ Py.getitem DENSITY_STRING 0 = inr 209.
Proof.
  split; [|split; [|split]]; vm_compute; reflexivity.
Qed.

(** ** The resize arithmetic: what it can raise *)

Lemma int_truediv_inl (a b : Z) (e : exn) :
  Py.int_truediv a b = inl e ->
  (e = ZeroDivisionError /\ b = 0) \/ (e = OverflowError /\ b <> 0).
Proof.
  unfold Py.int_truediv.
  destruct (Z.eqb_spec b 0) as [->|Hb].
  - intros [= <-]. left. split; reflexivity.
  - destruct (is_infinity _); [|discriminate].
    intros [= <-]. right. split; [reflexivity|exact Hb].
Qed.

Lemma float_of_int_inl (z : Z) (e : exn) :
  Py.float_of_int z = inl e -> e = OverflowError.
Proof.
  unfold Py.float_of_int. destruct (is_infinity _); [|discriminate].
  intros [= <-]. reflexivity.
Qed.

Lemma float_trunc_inl (f : float) (e : exn) :
  Py.float_trunc f = inl e -> e = ValueError \/ e = OverflowError.
Proof.
  unfold Py.float_trunc.
  destruct (is_nan f); [intros [= <-]; left; reflexivity|].
  destruct (is_infinity f); [intros [= <-]; right; reflexivity|].
  destruct (frshiftexp (abs f)). discriminate.
Qed.

Lemma new_size_divisor (w h max_size : Z) :
  new_size (w, h) max_size
  = (scale_factor <- Py.int_truediv max_size (Z.max w h) ;;
     fw <- Py.int_mul_float w scale_factor ;;
     w' <- Py.float_trunc fw ;;
     fh <- Py.int_mul_float h scale_factor ;;
     h' <- Py.float_trunc fh ;;
     ret (w', h')).
Proof.
  unfold new_size. rewrite Z.gtb_ltb.
  destruct (Z.ltb_spec h w).
  - rewrite Z.max_l by lia. reflexivity.
  - rewrite Z.max_r by lia. reflexivity.
Qed.

Lemma new_size_inl (w h max_size : Z) (e : exn) :
  new_size (w, h) max_size = inl e ->
  (e = ZeroDivisionError /\ Z.max w h = 0)
  \/ ((e = OverflowError \/ e = ValueError) /\ Z.max w h <> 0).
Proof.
  rewrite new_size_divisor. unfold Py.int_mul_float.
  destruct (Py.int_truediv max_size (Z.max w h)) as [e0|sf] eqn:Hq;
    cbn [bind].
  { intros [= <-]. apply int_truediv_inl in Hq as [[-> H0]|[-> Hn]];
      [left|right]; auto. }
  assert (Hn : Z.max w h <> 0).
  { intros H0. rewrite H0 in Hq. discriminate Hq. }
  intros H. right. split; [|exact Hn]. revert H.
  destruct (Py.float_of_int w) as [e1|fw] eqn:Hfw; cbn [bind ret].
  { intros [= <-]. left. exact (float_of_int_inl _ _ Hfw). }
  destruct (Py.float_trunc (fw * sf)) as [e2|w'] eqn:Htw; cbn [bind].
  { intros [= <-]. destruct (float_trunc_inl _ _ Htw); auto. }
  destruct (Py.float_of_int h) as [e3|fh] eqn:Hfh; cbn [bind ret].
  { intros [= <-]. left. exact (float_of_int_inl _ _ Hfh). }
  destruct (Py.float_trunc (fh * sf)) as [e4|h'] eqn:Hth; cbn [bind].
  { intros [= <-]. destruct (float_trunc_inl _ _ Hth); auto. }
  discriminate.
Qed.

(** ** The resizer *)

(** C2: on a 97 x 97 image with the bound 200 the code asks the resampler
    for 199 x 199: the longer side does not map to the bound, because
    [97 * (200 / 97)] is [199.99999999999997] in binary64. *)
Theorem new_size_misses_bound :
  Py.int_truediv MAX_SIZE 97 = inr 2.0618556701030926%float
  /\ Py.int_mul_float 97 2.0618556701030926%float
     = inr 199.99999999999997%float
  /\ exists w' h',
       new_size (97, 97) MAX_SIZE = inr (w', h')
       /\ Z.max w' h' = 199 /\ Z.max w' h' <> MAX_SIZE.
Proof.
  split; [vm_compute; reflexivity|]. split; [vm_compute; reflexivity|].
  exists 199, 199. split; [vm_compute; reflexivity|].
  split; [reflexivity|]. unfold MAX_SIZE. discriminate.
Qed.

(** Against C3 as stated: the size asked for a 2 x 1 image is not 2 x 1. *)
Lemma new_size_2x1_changes : new_size (2, 1) MAX_SIZE <> inr (2, 1).
Proof. vm_compute. discriminate. Qed.

(** C3: a 2 x 1 image with the bound 200 is not left as it is: the code
    asks the resampler for 200 x 100. *)
Theorem resize_image_2x1 (resize : Image -> Z * Z -> result Image)
  (image : Image) :
  size image = (2, 1) ->
  resize_image resize image MAX_SIZE = resize image (200, 100).
Proof.
  intros Hsz. unfold resize_image. rewrite Hsz.
  assert (E : new_size (2, 1) MAX_SIZE = inr (200, 100))
    by (vm_compute; reflexivity).
  rewrite E. reflexivity.
Qed.

Lemma resize_image_2x1_witness :
  size black_white = (2, 1)
  /\ resize_image resize_blank black_white MAX_SIZE
     = resize_blank black_white (200, 100).
Proof.
  split; [reflexivity|].
  apply (resize_image_2x1 resize_blank black_white). reflexivity.
Defined.






(** ** The luminance extractor *)




(** ** The grid renderer: layout and count *)

(** C8: for a luminance buffer of [width * height] samples, [create_svg]
    produces one drawing and hands it to [dwg.save()]: when the write
    succeeds the call returns the output path of the file name with that
    drawing recorded as saved under it, and when the write raises the call
    ends with that exception and the trace as it was.  The drawing, which
    does not depend on the writer, is named by the output path, its canvas
    is [(S * width, S * height)], its first element is the black
    background, and its text primitives, in row-major order, are: for the
    cell [(x, y)], at position [y * width + x], the white glyph of font
    size [cell = max (S * width) (S * height)] centered at
    [(x * cell + cell / 2, y * cell + cell / 2)] and carrying the mapper's
    output for the sample at index [y * width + x]; [cell] is even, so
    [cell / 2] is exact. *)
Theorem create_svg_layout (luminance_data : list Z) (width height : Z)
  (file_name : Py.str) :
  luminance_buffer luminance_data ->
  0 <= width -> 0 <= height ->
  Py.len luminance_data = width * height ->
  exists dwg,
    (forall save tr,
       create_svg save luminance_data (width, height) file_name tr
       = match save dwg with
         | inr _ => (inr (output_path file_name),
                     tr ++ [Saved (output_path file_name) dwg])
         | inl e => (inl e, tr)
         end)
    /\ filename dwg = output_path file_name
    /\ dsize dwg = (SCALE_FACTOR * width, SCALE_FACTOR * height)
    /\ nth_error (elements dwg) 0 = Some background
    /\ forall x y,
         0 <= x < width -> 0 <= y < height ->
         let cell := Z.max (SCALE_FACTOR * width) (SCALE_FACTOR * height) in
         exists v c,
           nth_error luminance_data (Z.to_nat (y * width + x)) = Some v
           /\ luminance_to_ascii_char v = inr c
           /\ nth_error (texts dwg) (Z.to_nat (y * width + x))
              = Some (glyph c (x * cell + cell / 2) (y * cell + cell / 2)
                        cell)
           /\ 2 * (cell / 2) = cell.
Proof.
  intros Hbuf Hw Hh Hlen.
  destruct (create_svg_grid luminance_data width height file_name
              Hbuf Hw Hh Hlen) as (rows & Hrows & Hsvg).
  eexists. split; [exact Hsvg|].
  split; [reflexivity|]. split; [reflexivity|]. split; [reflexivity|].
  intros x y Hx Hy cell.
  destruct (cell_text_ok luminance_data width height cell y x
              Hbuf Hlen Hx Hy) as (v & c & Hv & Hc & Hcell).
  exists v, c. split; [exact Hv|]. split; [exact Hc|].
  split.
  - unfold texts. cbn [elements].
    rewrite (create_svg_texts luminance_data width height rows Hrows).
    destruct (grid_nth _ width height rows Hw Hh Hrows x y Hx Hy)
      as (t & Ht & Hnth).
    fold cell in Hcell. change (cell_size_of (width, height)) with cell in Ht.
    rewrite Hcell in Ht. injection Ht as <-. exact Hnth.
  - subst cell.
    destruct (Z.max_spec (SCALE_FACTOR * width) (SCALE_FACTOR * height))
      as [[_ ->]|[_ ->]]; apply scaled_even.
Qed.

Lemma create_svg_layout_witness :
  luminance_buffer [0; 255] /\ 0 <= 2 /\ 0 <= 1
  /\ Py.len [0; 255] = 2 * 1
  /\ exists dwg,
       (forall save tr,
          create_svg save [0; 255] (2, 1) (Py.of_string "a") tr
          = match save dwg with
            | inr _ => (inr (output_path (Py.of_string "a")),
                        tr ++ [Saved (output_path (Py.of_string "a")) dwg])
            | inl e => (inl e, tr)
            end)
       /\ filename dwg = output_path (Py.of_string "a")
       /\ dsize dwg = (SCALE_FACTOR * 2, SCALE_FACTOR * 1)
       /\ nth_error (elements dwg) 0 = Some background
       /\ forall x y,
            0 <= x < 2 -> 0 <= y < 1 ->
            let cell := Z.max (SCALE_FACTOR * 2) (SCALE_FACTOR * 1) in
            exists v c,
              nth_error [0; 255] (Z.to_nat (y * 2 + x)) = Some v
              /\ luminance_to_ascii_char v = inr c
              /\ nth_error (texts dwg) (Z.to_nat (y * 2 + x))
                 = Some (glyph c (x * cell + cell / 2) (y * cell + cell / 2)
                           cell)
              /\ 2 * (cell / 2) = cell.
Proof.
  assert (Hbuf : luminance_buffer [0; 255]) by (repeat constructor; lia).
  split; [exact Hbuf|]. split; [lia|]. split; [lia|].
  split; [reflexivity|].
  apply (create_svg_layout [0; 255] 2 1 (Py.of_string "a") Hbuf);
    [lia|lia|reflexivity].
Defined.

(** C9: for a luminance buffer whose length is [width * height], the
    drawing that [create_svg] produces and hands to [dwg.save()], the one
    recorded as saved when the write succeeds, has exactly
    [width * height] text primitives; when the write raises, the call ends
    with that exception. *)
Theorem create_svg_text_count (luminance_data : list Z) (width height : Z)
  (file_name : Py.str) :
  luminance_buffer luminance_data ->
  0 <= width -> 0 <= height ->
  Py.len luminance_data = width * height ->
  exists dwg,
    (forall save tr,
       create_svg save luminance_data (width, height) file_name tr
       = match save dwg with
         | inr _ => (inr (output_path file_name),
                     tr ++ [Saved (output_path file_name) dwg])
         | inl e => (inl e, tr)
         end)
    /\ Py.len (texts dwg) = width * height.
Proof.
  intros Hbuf Hw Hh Hlen.
  destruct (create_svg_grid luminance_data width height file_name
              Hbuf Hw Hh Hlen) as (rows & Hrows & Hsvg).
  eexists. split; [exact Hsvg|].
  unfold texts, Py.len. cbn [elements].
  rewrite (create_svg_texts luminance_data width height rows Hrows).
  rewrite (grid_length _ width height rows Hw Hh Hrows). nia.
Qed.

Lemma create_svg_text_count_witness :
  luminance_buffer [0; 255] /\ 0 <= 2 /\ 0 <= 1
  /\ Py.len [0; 255] = 2 * 1
  /\ exists dwg,
       (forall save tr,
          create_svg save [0; 255] (2, 1) (Py.of_string "a") tr
          = match save dwg with
            | inr _ => (inr (output_path (Py.of_string "a")),
                        tr ++ [Saved (output_path (Py.of_string "a")) dwg])
            | inl e => (inl e, tr)
            end)
       /\ Py.len (texts dwg) = 2 * 1.
Proof.
  assert (Hbuf : luminance_buffer [0; 255]) by (repeat constructor; lia).
  split; [exact Hbuf|]. split; [lia|]. split; [lia|].
  split; [reflexivity|].
  apply (create_svg_text_count [0; 255] 2 1 (Py.of_string "a") Hbuf);
    [lia|lia|reflexivity].
Defined.

(** * Further properties of the code *)

(** ** Accepted file names *)

Lemma str_eqb_eq (s t : Py.str) : Py.eqb s t = true <-> s = t.
Proof.
  revert t. induction s as [|c s IH]; intros [|d t]; cbn [Py.eqb];
    try (split; [discriminate|discriminate]); [split; reflexivity|].
  rewrite andb_true_iff, Z.eqb_eq, IH.
  split; [intros [-> ->]; reflexivity|intros [= -> ->]; split; reflexivity].
Qed.

Lemma endswith1_spec (s suffix : Py.str) :
  Py.endswith1 s suffix = true <-> exists stem, s = stem ++ suffix.
Proof.
  unfold Py.endswith1. rewrite andb_true_iff, Nat.leb_le, str_eqb_eq.
  split.
  - intros [_ Hskip].
    exists (firstn (length s - length suffix) s).
    rewrite <- Hskip at 2. symmetry. apply firstn_skipn.
  - intros [stem ->]. rewrite length_app. split; [lia|].
    replace (length stem + length suffix - length suffix)%nat
      with (length stem + 0)%nat by lia.
    rewrite skipn_app, Nat.add_0_r, skipn_all.
    replace (length stem - length stem)%nat with 0%nat by lia.
    reflexivity.
Qed.

Lemma endswith_spec (s : Py.str) (suffixes : list Py.str) :
  Py.endswith s suffixes = true
  <-> exists stem suffix, In suffix suffixes /\ s = stem ++ suffix.
Proof.
  unfold Py.endswith. rewrite existsb_exists. split.
  - intros (suffix & Hin & Hend). apply endswith1_spec in Hend as [stem ->].
    exists stem, suffix. split; [exact Hin|reflexivity].
  - intros (stem & suffix & Hin & ->). exists suffix.
    split; [exact Hin|]. apply endswith1_spec. exists stem. reflexivity.
Qed.

(** X1: a directory entry passes the extension test of the loading loop
    exactly when its lower-cased name is some stem, possibly empty, followed
    by [.png], [.jpg] or [.jpeg]. *)
Theorem accepted_names (lower : Py.str -> Py.str) (file_name : Py.str) :
  ~ unsupported lower file_name
  <-> exists stem,
        lower file_name = stem ++ Py.of_string ".png"
        \/ lower file_name = stem ++ Py.of_string ".jpg"
        \/ lower file_name = stem ++ Py.of_string ".jpeg".
Proof.
  unfold unsupported. rewrite not_false_iff_true, endswith_spec. split.
  - intros (stem & suffix & Hin & Heq). exists stem.
    unfold SUPPORTED_FORMATS in Hin. cbn [In] in Hin.
    destruct Hin as [<-|[<-|[<-|[]]]]; auto.
  - intros (stem & [H|[H|H]]); exists stem; eexists; (split; [|exact H]);
      unfold SUPPORTED_FORMATS; cbn [In]; auto.
Qed.

(** ** Loading a directory *)

Section LoadFacts.

Variable listdir : Py.str -> result (list Py.str).
Variable lower : Py.str -> Py.str.
Variable open_rgb : Py.str -> result Image.

Lemma load_entry_inr (directory file_name : Py.str) (image : Image) :
  load_entry lower open_rgb directory file_name = inr image
  <-> ~ unsupported lower file_name
      /\ open_rgb (Py.path_join directory file_name) = inr image.
Proof.
  unfold load_entry, unsupported, load_image.
  destruct (Py.endswith (lower file_name) SUPPORTED_FORMATS).
  - split; [intros H; split; [discriminate|exact H]|intros [_ H]; exact H].
  - split; [discriminate|intros [H _]; contradiction H; reflexivity].
Qed.

(** The loading loop, entry by entry. *)
Lemma load_loop_step (directory : Py.str) (names : list Py.str) :
  forall file_names images,
    for_ names
      (fun file_name '(file_names, images) =>
         if Py.endswith (lower file_name) SUPPORTED_FORMATS then
           let file_path := Py.path_join directory file_name in
           image <- load_image open_rgb file_path ;;
           ret (file_names ++ [file_name], images ++ [image])
         else raise (TypeError "This file type is not supported."))
      (file_names, images)
    = (loaded <- comprehension (load_entry lower open_rgb directory) names ;;
       ret (file_names ++ names, images ++ loaded)).
Proof.
  induction names as [|n names IH]; intros file_names images;
    cbn [for_ comprehension bind ret].
  - rewrite !app_nil_r. reflexivity.
  - unfold load_entry at 1.
    destruct (Py.endswith (lower n) SUPPORTED_FORMATS); [|reflexivity].
    destruct (load_image open_rgb (Py.path_join directory n)) as [e|image];
      cbn [bind ret]; [reflexivity|].
    rewrite IH.
    destruct (comprehension (load_entry lower open_rgb directory) names)
      as [e|loaded]; cbn [bind ret]; [reflexivity|].
    rewrite <- !app_assoc. reflexivity.
Qed.

Lemma load_comprehension (directory : Py.str) :
  load_images_from_directory listdir lower open_rgb directory
  = (names <- listdir directory ;;
     loaded <- comprehension (load_entry lower open_rgb directory) names ;;
     ret (names, loaded)).
Proof.
  unfold load_images_from_directory.
  destruct (listdir directory) as [e|names]; cbn [bind]; [reflexivity|].
  apply load_loop_step.
Qed.

(** X2: loading succeeds exactly when the directory can be listed, every
    entry passes the extension test and every entry decodes; what it returns
    is then the listing itself, in listing order, and for each name the
    image decoded from the directory joined with that name. *)
Theorem load_images_success (directory : Py.str) (file_names : list Py.str)
  (images : list Image) :
  load_images_from_directory listdir lower open_rgb directory
  = inr (file_names, images)
  <-> listdir directory = inr file_names
      /\ Forall (fun n => ~ unsupported lower n) file_names
      /\ Forall2 (fun n image =>
                    open_rgb (Py.path_join directory n) = inr image)
           file_names images.
Proof.
  rewrite load_comprehension. split.
  - destruct (listdir directory) as [e|names]; cbn [bind]; [discriminate|].
    destruct (comprehension (load_entry lower open_rgb directory) names)
      as [e|loaded] eqn:Hc; cbn [bind ret]; [discriminate|].
    intros [= <- <-]. split; [reflexivity|].
    apply comprehension_inr in Hc.
    induction Hc as [|n image names loaded Hn _ IH].
    + split; constructor.
    + apply load_entry_inr in Hn as [Hs Ho]. destruct IH as [IH1 IH2].
      split; constructor; assumption.
  - intros (-> & Hsup & Hall). cbn [bind].
    assert (Hc : comprehension (load_entry lower open_rgb directory)
                   file_names = inr images).
    { clear - Hsup Hall.
      induction Hall as [|n image names loaded Hn _ IH];
        cbn [comprehension]; [reflexivity|].
      inversion Hsup as [|? ? Hs Hrest]; subst.
      rewrite (proj2 (load_entry_inr directory n image) (conj Hs Hn)).
      cbn [bind]. rewrite (IH Hrest). reflexivity. }
    rewrite Hc. reflexivity.
Qed.

Lemma comprehension_first_failure {A B : Type} (f : A -> result B)
  (good : list A) (bad : A) (rest : list A) (e : exn) :
  (forall a, In a good -> exists b, f a = inr b) ->
  f bad = inl e ->
  comprehension f (good ++ bad :: rest) = inl e.
Proof.
  intros Hgood Hbad. induction good as [|a good IH];
    cbn [app comprehension].
  - rewrite Hbad. reflexivity.
  - destruct (Hgood a (or_introl eq_refl)) as [b ->]. cbn [bind].
    rewrite IH; [reflexivity|].
    intros a' Ha'. apply Hgood. right. exact Ha'.
Qed.

(** X3: loading stops at the first entry, in listing order, that fails:
    when the entries before it are supported and decode, the exception of
    that entry (the [TypeError] of an unsupported name, or whatever the
    decoder raises) is the exception of the whole call, whatever follows it
    in the listing. *)
Theorem load_images_first_failure (directory : Py.str)
  (good : list Py.str) (bad : Py.str) (rest : list Py.str) (e : exn) :
  listdir directory = inr (good ++ bad :: rest) ->
  (forall n, In n good ->
             ~ unsupported lower n
             /\ exists image,
                  open_rgb (Py.path_join directory n) = inr image) ->
  load_entry lower open_rgb directory bad = inl e ->
  load_images_from_directory listdir lower open_rgb directory = inl e.
Proof.
  intros Hdir Hgood Hbad. rewrite load_comprehension, Hdir. cbn [bind].
  rewrite (comprehension_first_failure _ good bad rest e); [reflexivity| |exact Hbad].
  intros n Hn. destruct (Hgood n Hn) as (Hs & image & Ho).
  exists image. apply load_entry_inr. split; assumption.
Qed.

End LoadFacts.

Lemma load_images_first_failure_witness :
  listdir_sample INPUT_DIRECTORY
  = inr ([Py.of_string "photo.PNG"] ++ Py.of_string "notes.txt" :: [])
  /\ (forall n, In n [Py.of_string "photo.PNG"] ->
                ~ unsupported ascii_lower n
                /\ exists image,
                     open_sample (Py.path_join INPUT_DIRECTORY n) = inr image)
  /\ load_entry ascii_lower open_sample INPUT_DIRECTORY
       (Py.of_string "notes.txt")
     = inl (TypeError "This file type is not supported.")
  /\ load_images_from_directory listdir_sample ascii_lower open_sample
       INPUT_DIRECTORY
     = inl (TypeError "This file type is not supported.").
Proof.
  assert (Hgood : forall n, In n [Py.of_string "photo.PNG"] ->
                    ~ unsupported ascii_lower n
                    /\ exists image,
                         open_sample (Py.path_join INPUT_DIRECTORY n)
                         = inr image).
  { intros n [<-|[]]. split; [discriminate|].
    exists black_white. reflexivity. }
  split; [reflexivity|]. split; [exact Hgood|]. split; [reflexivity|].
  apply (load_images_first_failure listdir_sample ascii_lower open_sample
           INPUT_DIRECTORY [Py.of_string "photo.PNG"]
           (Py.of_string "notes.txt") []);
    [reflexivity|exact Hgood|reflexivity].
Defined.

(** ** The resize arithmetic: errors and symmetry *)

(** X4: the resize arithmetic raises [ZeroDivisionError] exactly when the
    larger of the two sides is 0 (for sides that are not negative: on a
    0 x 0 image), whatever the bound; every other exception it raises is
    an [OverflowError] or a [ValueError]. *)
Theorem new_size_zero_division (w h max_size : Z) :
  (new_size (w, h) max_size = inl ZeroDivisionError <-> Z.max w h = 0)
  /\ forall e,
       new_size (w, h) max_size = inl e ->
       e = ZeroDivisionError \/ e = OverflowError \/ e = ValueError.
Proof.
  split; [split|].
  - intros H. apply new_size_inl in H as [[_ H0]|[[Hc|Hc] _]];
      [exact H0|discriminate|discriminate].
  - intros H0. rewrite new_size_divisor, H0. reflexivity.
  - intros e H. apply new_size_inl in H as [[-> _]|[[->| ->] _]]; auto.
Qed.

(** X5: the resize arithmetic commutes with transposition: when a
    [w] x [h] image is resized to [w'] x [h'], the [h] x [w] image is
    resized to [h'] x [w'], for every bound. *)
Theorem new_size_transpose (w h max_size w' h' : Z) :
  new_size (w, h) max_size = inr (w', h') ->
  new_size (h, w) max_size = inr (h', w').
Proof.
  rewrite !new_size_divisor, (Z.max_comm h w). unfold Py.int_mul_float.
  destruct (Py.int_truediv max_size (Z.max w h)) as [e0|sf]; cbn [bind];
    [discriminate|].
  destruct (Py.float_of_int w) as [e1|fw]; cbn [bind ret]; [discriminate|].
  destruct (Py.float_trunc (fw * sf)) as [e2|a]; cbn [bind]; [discriminate|].
  destruct (Py.float_of_int h) as [e3|fh]; cbn [bind ret]; [discriminate|].
  destruct (Py.float_trunc (fh * sf)) as [e4|b]; cbn [bind]; [discriminate|].
  intros [= <- <-]. reflexivity.
Qed.

Lemma new_size_transpose_witness :
  new_size (300, 200) MAX_SIZE = inr (200, 133)
  /\ new_size (200, 300) MAX_SIZE = inr (133, 200).
Proof.
  assert (H : new_size (300, 200) MAX_SIZE = inr (200, 133))
    by (vm_compute; reflexivity).
  split; [exact H|].
  exact (new_size_transpose 300 200 MAX_SIZE 200 133 H).
Defined.

(** ** The resize arithmetic on bounded sides: how far it is from exact *)

Lemma resize_fits_all :
  all_from 2048 1 (fun w => all_from 2048 1 (resize_fits 200 w)) = true.
Proof. vm_compute. reflexivity. Qed.

Lemma resize_fits_bounded (w h : Z) :
  1 <= w <= SIDE_BOUND -> 1 <= h <= SIDE_BOUND ->
  resize_fits 200 (of_Z w) (of_Z h) = true.
Proof.
  unfold SIDE_BOUND. intros Hw Hh.
  assert (HwB : 4096 <= wB) by (change wB with 9223372036854775808; lia).
  assert (Hfit : to_Z 1 + Z.of_nat 2048 <= wB)
    by (change (Z.of_nat 2048) with 2048; change (to_Z 1) with 1; lia).
  assert (Hin : forall z, 1 <= z <= 2048 ->
                  to_Z 1 <= to_Z (of_Z z) < to_Z 1 + Z.of_nat 2048).
  { intros z Hz. rewrite to_Z_of_Z_small by lia.
    change (Z.of_nat 2048) with 2048. change (to_Z 1) with 1. lia. }
  pose proof (all_from_spec _ _ _ resize_fits_all Hfit (of_Z w) (Hin w Hw))
    as H.
  cbv beta in H.
  exact (all_from_spec _ _ _ H Hfit (of_Z h) (Hin h Hh)).
Qed.

Lemma quotient_within_one (longer side side' : Z) :
  0 < longer ->
  longer * side' <= MAX_SIZE * side < longer * (side' + 2) ->
  side' = MAX_SIZE * side / longer \/ side' = MAX_SIZE * side / longer - 1.
Proof.
  intros Hl [Hlo Hhi].
  assert (side' <= MAX_SIZE * side / longer)
    by (apply Z.div_le_lower_bound; lia).
  assert (MAX_SIZE * side / longer < side' + 2)
    by (apply Z.div_lt_upper_bound; lia).
  lia.
Qed.

(** X6: for sides between 1 and [SIDE_BOUND] the resize arithmetic
    succeeds, and each new side is the exact [MAX_SIZE * side / longer],
    rounded down, or one less; so the new size fits the bounding box and
    its longer side is [MAX_SIZE] or [MAX_SIZE - 1]. *)
Theorem new_size_within_one (w h : Z) :
  1 <= w <= SIDE_BOUND -> 1 <= h <= SIDE_BOUND ->
  exists w' h',
    new_size (w, h) MAX_SIZE = inr (w', h')
    /\ (w' = MAX_SIZE * w / Z.max w h \/ w' = MAX_SIZE * w / Z.max w h - 1)
    /\ (h' = MAX_SIZE * h / Z.max w h \/ h' = MAX_SIZE * h / Z.max w h - 1)
    /\ 0 <= w' <= MAX_SIZE /\ 0 <= h' <= MAX_SIZE
    /\ MAX_SIZE - 1 <= Z.max w' h'.
Proof.
  intros Hw Hh.
  pose proof (resize_fits_bounded w h Hw Hh) as Hok.
  assert (SB : SIDE_BOUND = 2048) by reflexivity.
  assert (MS : MAX_SIZE = 200) by reflexivity.
  assert (HwB : wB = 9223372036854775808) by reflexivity.
  assert (Hmul : forall (a : int) z, to_Z a <= 4096 -> 0 <= z <= 4096 ->
                   to_Z (a * of_Z z)%uint63 = to_Z a * z).
  { intros a z Ha Hz. rewrite Uint63.mul_spec, to_Z_of_Z_small by lia.
    pose proof (to_Z_bounded a). apply Z.mod_small. nia. }
  set (L := Z.max w h).
  assert (HL : 1 <= L <= 2048) by (subst L; lia).
  assert (Hsf : scale_float 200 (of_Z w) (of_Z h)
                = (of_uint63 200 / of_uint63 (of_Z L))%float).
  { unfold scale_float. subst L.
    destruct (ltbP (of_Z h) (of_Z w)) as [Hlt|Hge];
      rewrite !to_Z_of_Z_small in * by lia.
    - rewrite Z.max_l by lia. reflexivity.
    - rewrite Z.max_r by lia. reflexivity. }
  assert (Hhi : (if (of_Z h <? of_Z w)%uint63 then of_Z w else of_Z h)
                = of_Z L).
  { subst L. destruct (ltbP (of_Z h) (of_Z w)) as [Hlt|Hge];
      rewrite !to_Z_of_Z_small in * by lia.
    - rewrite Z.max_l by lia. reflexivity.
    - rewrite Z.max_r by lia. reflexivity. }
  unfold resize_fits in Hok. rewrite Hsf, Hhi in Hok.
  rewrite new_size_divisor. fold L. unfold Py.int_mul_float.
  rewrite int_truediv_small by lia. cbn [bind].
  rewrite !float_of_int_small by lia. cbn [bind ret].
  destruct (trunc_fast (of_uint63 (of_Z w) * (of_uint63 200 / of_uint63 (of_Z L))))
    as [a|] eqn:Ha; [|discriminate].
  destruct (trunc_fast (of_uint63 (of_Z h) * (of_uint63 200 / of_uint63 (of_Z L))))
    as [b|] eqn:Hb; [|discriminate].
  apply trunc_fast_sound in Ha, Hb. rewrite Ha. cbn [bind]. rewrite Hb.
  cbn [bind]. int_to_Z.
  pose proof (to_Z_bounded a) as Hba. pose proof (to_Z_bounded b) as Hbb.
  change (to_Z 200) with 200 in *.
  assert (H200 : forall z, 0 <= z <= 4096 ->
                   to_Z (200 * of_Z z)%uint63 = 200 * z).
  { intros z Hz. rewrite Uint63.mul_spec, to_Z_of_Z_small by lia.
    change (to_Z 200) with 200. apply Z.mod_small. lia. }
  assert (HLmul : forall c : int, to_Z c <= 202 ->
                    to_Z (of_Z L * c)%uint63 = L * to_Z c).
  { intros c Hc. pose proof (to_Z_bounded c).
    rewrite Uint63.mul_spec, to_Z_of_Z_small by lia.
    apply Z.mod_small. nia. }
  assert (Hplus : forall c : int, to_Z c <= 200 ->
                    to_Z (c + 2)%uint63 = to_Z c + 2).
  { intros c Hc. pose proof (to_Z_bounded c).
    rewrite Uint63.add_spec. change (to_Z 2) with 2.
    apply Z.mod_small. lia. }
  rewrite !H200 in * by lia.
  rewrite !HLmul in * by (rewrite ?Hplus by lia; lia).
  rewrite !Hplus in * by lia.
  exists (to_Z a), (to_Z b). split; [reflexivity|].
  assert (Hqa : to_Z a = MAX_SIZE * w / L \/ to_Z a = MAX_SIZE * w / L - 1)
    by (apply quotient_within_one; lia).
  assert (Hqb : to_Z b = MAX_SIZE * h / L \/ to_Z b = MAX_SIZE * h / L - 1)
    by (apply quotient_within_one; lia).
  split; [exact Hqa|]. split; [exact Hqb|].
  split; [lia|]. split; [lia|].
  assert (HqL : MAX_SIZE * L / L = MAX_SIZE) by (apply Z.div_mul; lia).
  destruct (Z.max_spec w h) as [[_ Hm]|[_ Hm]]; fold L in Hm.
  - rewrite <- Hm, HqL in Hqb. lia.
  - rewrite <- Hm, HqL in Hqa. lia.
Qed.

Lemma new_size_within_one_witness :
  1 <= 97 <= SIDE_BOUND /\ 1 <= 50 <= SIDE_BOUND
  /\ exists w' h',
       new_size (97, 50) MAX_SIZE = inr (w', h')
       /\ (w' = MAX_SIZE * 97 / Z.max 97 50
           \/ w' = MAX_SIZE * 97 / Z.max 97 50 - 1)
       /\ (h' = MAX_SIZE * 50 / Z.max 97 50
           \/ h' = MAX_SIZE * 50 / Z.max 97 50 - 1)
       /\ 0 <= w' <= MAX_SIZE /\ 0 <= h' <= MAX_SIZE
       /\ MAX_SIZE - 1 <= Z.max w' h'.
Proof.
  assert (SB : SIDE_BOUND = 2048) by reflexivity.
  split; [lia|]. split; [lia|].
  apply (new_size_within_one 97 50); lia.
Defined.

(** ** Luminance and mapper: composition *)

Lemma comprehension_app {A B : Type} (f : A -> result B) (l1 l2 : list A) :
  comprehension f (l1 ++ l2)
  = (b1 <- comprehension f l1 ;; b2 <- comprehension f l2 ;; ret (b1 ++ b2)).
Proof.
  induction l1 as [|a l1 IH]; cbn [app comprehension bind ret].
  - destruct (comprehension f l2); reflexivity.
  - destruct (f a) as [e|b]; cbn [bind]; [reflexivity|].
    rewrite IH. destruct (comprehension f l1) as [e|b1]; cbn [bind];
      [reflexivity|].
    destruct (comprehension f l2) as [e|b2]; reflexivity.
Qed.

(** X7: pixels are converted one by one: the luminance buffer of two pixel
    buffers laid end to end is the two luminance buffers laid end to end. *)
Theorem rgb_to_luminance_app (pixels1 pixels2 : list rgb) (lum1 lum2 : list Z) :
  rgb_to_luminance pixels1 = inr lum1 ->
  rgb_to_luminance pixels2 = inr lum2 ->
  rgb_to_luminance (pixels1 ++ pixels2) = inr (lum1 ++ lum2).
Proof.
  unfold rgb_to_luminance. intros H1 H2.
  rewrite comprehension_app, H1, H2. reflexivity.
Qed.

Lemma rgb_to_luminance_app_witness :
  rgb_to_luminance [(0, 0, 0)] = inr [0]
  /\ rgb_to_luminance [(255, 255, 255)] = inr [255]
  /\ rgb_to_luminance ([(0, 0, 0)] ++ [(255, 255, 255)]) = inr ([0] ++ [255]).
Proof.
  assert (H1 : rgb_to_luminance [(0, 0, 0)] = inr [0])
    by (vm_compute; reflexivity).
  assert (H2 : rgb_to_luminance [(255, 255, 255)] = inr [255])
    by (vm_compute; reflexivity).
  split; [exact H1|]. split; [exact H2|].
  exact (rgb_to_luminance_app _ _ _ _ H1 H2).
Defined.

(** X8: every position of the density string is used: for each position
    [i] there is a luminance in [[0, 255]] that the mapper sends to [i]. *)
Theorem mapper_onto (i : Z) :
  0 <= i < Py.len DENSITY_STRING ->
  0 <= luminance_of_position i <= 255
  /\ luminance_to_ascii_char (luminance_of_position i) = inr (PyInt i).
Proof.
  intros Hi. change (Py.len DENSITY_STRING) with 28 in Hi.
  assert (Hall : forall_below 28
                   (fun i => let v := luminance_of_position i in
                             (0 <=? v) && (v <=? 255)
                             && (Py.len DENSITY_STRING - 1
                                 - round_half_up
                                     (v * (Py.len DENSITY_STRING - 1)) 255
                                 =? i)) = true)
    by (vm_compute; reflexivity).
  pose proof (forall_below_spec _ _ Hall i) as H.
  change (Z.of_nat 28) with 28 in H. specialize (H Hi). cbv zeta in H.
  apply andb_prop in H as [H Heq]. apply andb_prop in H as [H0 H255].
  apply Z.leb_le in H0, H255. apply Z.eqb_eq in Heq.
  split; [lia|]. rewrite mapper_index by lia. rewrite Heq. reflexivity.
Qed.

Lemma mapper_onto_witness :
  0 <= 13 < Py.len DENSITY_STRING
  /\ 0 <= luminance_of_position 13 <= 255
  /\ luminance_to_ascii_char (luminance_of_position 13) = inr (PyInt 13).
Proof.
  assert (H : 0 <= 13 < Py.len DENSITY_STRING)
    by (change (Py.len DENSITY_STRING) with 28; lia).
  split; [exact H|]. exact (mapper_onto 13 H).
Defined.

(** ** The grid renderer: buffers that do not match, empty grids *)

Lemma getitem_nonneg {A : Type} (l : list A) (i : Z) :
  0 <= i -> Py.getitem l i = match nth_error l (Z.to_nat i) with
                             | Some a => ret a
                             | None => raise IndexError
                             end.
Proof.
  intros Hi. unfold Py.getitem.
  destruct (Z.ltb_spec i 0) as [Hc|_]; [lia|].
  destruct (Z.ltb_spec i 0) as [Hc|_]; [lia|]. reflexivity.
Qed.

Lemma cell_text_inl (luminance_data : list Z) (w cell y x : Z) (e : exn) :
  luminance_buffer luminance_data ->
  0 <= y * w + x ->
  cell_text luminance_data w cell y x = inl e -> e = IndexError.
Proof.
  intros Hbuf Hidx. unfold cell_text. rewrite getitem_nonneg by exact Hidx.
  destruct (nth_error luminance_data (Z.to_nat (y * w + x))) as [v|] eqn:Hv;
    cbn [bind ret raise]; [|intros [= <-]; reflexivity].
  assert (Hv255 : 0 <= v <= 255).
  { unfold luminance_buffer in Hbuf. rewrite Forall_forall in Hbuf.
    apply Hbuf. eapply nth_error_In. exact Hv. }
  rewrite mapper_index by exact Hv255. discriminate.
Qed.

Lemma comprehension_inl {A B : Type} (f : A -> result B) (P : exn -> Prop) :
  forall l e,
    (forall a e', In a l -> f a = inl e' -> P e') ->
    comprehension f l = inl e -> P e.
Proof.
  induction l as [|a l IH]; cbn [comprehension]; intros e HP H;
    [discriminate|].
  destruct (f a) as [e'|b] eqn:Ha; cbn [bind] in H.
  - injection H as <-. exact (HP a e' (or_introl eq_refl) Ha).
  - destruct (comprehension f l) as [e'|bs] eqn:Hl; cbn [bind] in H;
      [|discriminate].
    injection H as <-. apply IH; [|reflexivity].
    intros a' e'' Ha' Hf. exact (HP a' e'' (or_intror Ha') Hf).
Qed.

(** X9: a luminance buffer shorter than [width * height] is fatal for the
    image: [create_svg] raises [IndexError] and the trace of events is left
    as it was, so no file is saved for it; the file writer is not
    reached. *)
Theorem create_svg_short_buffer (save : Drawing -> result unit)
  (luminance_data : list Z) (width height : Z)
  (file_name : Py.str) (tr : list event) :
  luminance_buffer luminance_data ->
  0 <= width -> 0 <= height ->
  Py.len luminance_data < width * height ->
  create_svg save luminance_data (width, height) file_name tr
  = (inl IndexError, tr).
Proof.
  intros Hbuf Hw Hh Hlen. unfold Py.len in Hlen.
  unfold create_svg, io_bind, lift.
  set (cell := Z.max (SCALE_FACTOR * width) (SCALE_FACTOR * height)).
  rewrite (for_for_add (cell_text luminance_data width cell)).
  destruct (comprehension
              (fun y => comprehension (cell_text luminance_data width cell y)
                          (Py.range width))
              (Py.range height)) as [e|rows] eqn:Hrows; cbn [bind].
  - assert (He : e = IndexError); [|rewrite He; reflexivity].
    apply (comprehension_inl _ (fun e => e = IndexError) _ _) in Hrows;
      [exact Hrows|].
    intros y e' Hy Hrow. apply range_In in Hy.
    apply (comprehension_inl _ (fun e => e = IndexError) _ _) in Hrow;
      [exact Hrow|].
    intros x e'' Hx Hcell. apply range_In in Hx.
    apply (cell_text_inl _ _ _ _ _ _ Hbuf) in Hcell; [exact Hcell|nia].
  - exfalso.
    assert (Hwpos : 0 < width) by nia.
    set (n := Z.of_nat (length luminance_data)) in *.
    assert (Hn : 0 <= n) by (subst n; lia).
    pose proof (Z.div_mod n width ltac:(lia)) as Hdm.
    pose proof (Z.mod_pos_bound n width Hwpos) as Hmod.
    assert (Hy : 0 <= n / width < height).
    { split; [apply Z.div_pos; lia|].
      apply Z.div_lt_upper_bound; [lia|]. lia. }
    destruct (grid_nth _ width height rows Hw Hh Hrows (n mod width)
                (n / width) Hmod Hy) as (t & Ht & _).
    unfold cell_text in Ht.
    replace (n / width * width + n mod width) with n in Ht by lia.
    rewrite getitem_nonneg in Ht by exact Hn.
    assert (Hnone : nth_error luminance_data (Z.to_nat n) = None).
    { apply nth_error_None. subst n. lia. }
    rewrite Hnone in Ht. discriminate Ht.
Qed.

Lemma create_svg_short_buffer_witness :
  luminance_buffer [0; 255; 7] /\ 0 <= 2 /\ 0 <= 2
  /\ Py.len [0; 255; 7] < 2 * 2
  /\ create_svg save_ok [0; 255; 7] (2, 2) (Py.of_string "a") []
     = (inl IndexError, []).
Proof.
  assert (Hbuf : luminance_buffer [0; 255; 7]) by (repeat constructor; lia).
  assert (Hlen : Py.len [0; 255; 7] < 2 * 2) by (cbn; lia).
  split; [exact Hbuf|]. split; [lia|]. split; [lia|]. split; [exact Hlen|].
  apply (create_svg_short_buffer save_ok [0; 255; 7] 2 2 (Py.of_string "a")
           [] Hbuf);
    [lia|lia|exact Hlen].
Defined.

Lemma for_ext {A S : Type} (body body' : A -> S -> result S) :
  forall l s,
    (forall a s', In a l -> body a s' = body' a s') ->
    for_ l body s = for_ l body' s.
Proof.
  induction l as [|a l IH]; intros s H; cbn [for_]; [reflexivity|].
  rewrite (H a s (or_introl eq_refl)).
  destruct (body' a s) as [e|s']; cbn [bind]; [reflexivity|].
  apply IH. intros a' s'' Ha'. apply H. right. exact Ha'.
Qed.

(** X10: samples past the first [width * height] are never read: the
    drawing of a buffer is the drawing of its first [width * height]
    samples, and so is every exception, whatever the file writer does. *)
Theorem create_svg_ignores_tail (save : Drawing -> result unit)
  (luminance_data : list Z) (width height : Z)
  (file_name : Py.str) (tr : list event) :
  create_svg save luminance_data (width, height) file_name tr
  = create_svg save (firstn (Z.to_nat (width * height)) luminance_data)
      (width, height) file_name tr.
Proof.
  unfold create_svg, io_bind, lift.
  set (cell := Z.max (SCALE_FACTOR * width) (SCALE_FACTOR * height)).
  set (dwg0 := add _ _).
  assert (Hloops :
    for_ (Py.range height)
      (fun y dwg =>
         for_ (Py.range width)
           (fun x dwg' =>
              t <- cell_text luminance_data width cell y x ;;
              ret (add dwg' t)) dwg) dwg0
    = for_ (Py.range height)
        (fun y dwg =>
           for_ (Py.range width)
             (fun x dwg' =>
                t <- cell_text
                       (firstn (Z.to_nat (width * height)) luminance_data)
                       width cell y x ;;
                ret (add dwg' t)) dwg) dwg0).
  { apply for_ext. intros y dwg Hy. apply range_In in Hy.
    apply for_ext. intros x dwg' Hx. apply range_In in Hx.
    unfold cell_text. rewrite !getitem_nonneg by nia.
    rewrite nth_error_firstn.
    destruct (Nat.ltb_spec (Z.to_nat (y * width + x))
                (Z.to_nat (width * height))) as [_|Hc]; [reflexivity|nia]. }
  rewrite Hloops. reflexivity.
Qed.

Lemma range_nonpos (n : Z) : n <= 0 -> Py.range n = [].
Proof.
  intros Hn. unfold Py.range. replace (Z.to_nat n) with 0%nat by lia.
  reflexivity.
Qed.

(** X11: a grid with no cells, one side being 0 (or less), raises nothing
    of its own: whatever the buffer holds, [create_svg] reads no sample and
    hands to [dwg.save()] the drawing that consists of the background alone,
    on a canvas with a zero (or negative) side.  The call goes the way of
    that write: when the write succeeds the drawing is recorded as saved
    and its path returned, and when it raises the call ends with that
    exception and the trace as it was. *)
Theorem create_svg_empty_grid (save : Drawing -> result unit)
  (luminance_data : list Z) (width height : Z)
  (file_name : Py.str) (tr : list event) :
  width <= 0 \/ height <= 0 ->
  let dwg :=
    mkDrawing (output_path file_name)
      (SCALE_FACTOR * width, SCALE_FACTOR * height)
      (Py.of_string "full") [background] in
  create_svg save luminance_data (width, height) file_name tr
  = match save dwg with
    | inr _ => (inr (output_path file_name),
                tr ++ [Saved (output_path file_name) dwg])
    | inl e => (inl e, tr)
    end.
Proof.
  intros Hdim dwg. subst dwg.
  unfold create_svg, io_bind, lift, emit, io_ret.
  fold (output_path file_name).
  set (cell := Z.max (SCALE_FACTOR * width) (SCALE_FACTOR * height)).
  rewrite (for_for_add (cell_text luminance_data width cell)).
  assert (Hrows : exists rows,
             comprehension
               (fun y => comprehension
                           (cell_text luminance_data width cell y)
                           (Py.range width))
               (Py.range height) = inr rows
             /\ concat rows = []).
  { destruct (Z.le_gt_cases height 0) as [Hh|Hh].
    - rewrite (range_nonpos height Hh). exists []. split; reflexivity.
    - assert (Hw : width <= 0) by lia. rewrite (range_nonpos width Hw).
      cbn [comprehension].
      induction (Py.range height) as [|y ys IH].
      + exists []. split; reflexivity.
      + destruct IH as (rows & Hr & Hc). exists ([] :: rows).
        cbn [comprehension bind ret]. rewrite Hr. cbn [bind ret concat app].
        split; [reflexivity|exact Hc]. }
  destruct Hrows as (rows & -> & Hc). cbn [bind ret]. rewrite Hc.
  destruct (save _); reflexivity.
Qed.

Lemma create_svg_empty_grid_witness :
  (200 <= 0 \/ 0 <= 0)
  /\ create_svg save_ok [] (200, 0) (Py.of_string "a") []
     = (inr (output_path (Py.of_string "a")),
        [] ++ [Saved (output_path (Py.of_string "a"))
                 (mkDrawing (output_path (Py.of_string "a"))
                    (SCALE_FACTOR * 200, SCALE_FACTOR * 0)
                    (Py.of_string "full") [background])])
  /\ create_svg save_missing [] (200, 0) (Py.of_string "a") []
     = (inl FileNotFoundError, []).
Proof.
  assert (H : 200 <= 0 \/ 0 <= 0) by (right; lia).
  split; [exact H|]. split.
  - exact (create_svg_empty_grid save_ok [] 200 0 (Py.of_string "a") [] H).
  - exact (create_svg_empty_grid save_missing [] 200 0 (Py.of_string "a")
             [] H).
Defined.

(** X12: the grid does not fit its canvas.  The cell size is the longer
    side of the whole canvas, so in the drawing that [create_svg] hands to
    [dwg.save()] the glyph of every cell right of the first column is
    centered beyond the canvas width, and the glyph of every cell below the
    first row beyond the canvas height: only the glyph of cell [(0, 0)] can
    have its center on the canvas. *)
Theorem glyphs_off_canvas (luminance_data : list Z) (width height : Z)
  (file_name : Py.str) :
  luminance_buffer luminance_data ->
  0 <= width -> 0 <= height ->
  Py.len luminance_data = width * height ->
  exists dwg,
    (forall save tr,
       create_svg save luminance_data (width, height) file_name tr
       = match save dwg with
         | inr _ => (inr (output_path file_name),
                     tr ++ [Saved (output_path file_name) dwg])
         | inl e => (inl e, tr)
         end)
    /\ forall x y,
         0 <= x < width -> 0 <= y < height ->
         exists c cx cy cell,
           nth_error (texts dwg) (Z.to_nat (y * width + x))
           = Some (glyph c cx cy cell)
           /\ (1 <= x -> fst (dsize dwg) < cx)
           /\ (1 <= y -> snd (dsize dwg) < cy).
Proof.
  intros Hbuf Hw Hh Hlen.
  destruct (create_svg_grid luminance_data width height file_name
              Hbuf Hw Hh Hlen) as (rows & Hrows & Hsvg).
  eexists. split; [exact Hsvg|].
  intros x y Hx Hy.
  set (cell := cell_size_of (width, height)).
  destruct (cell_text_ok luminance_data width height cell y x
              Hbuf Hlen Hx Hy) as (v & c & _ & _ & Hcell).
  destruct (grid_nth _ width height rows Hw Hh Hrows x y Hx Hy)
    as (t & Ht & Hnth).
  fold cell in Ht. rewrite Hcell in Ht. injection Ht as <-.
  exists c, (x * cell + cell / 2), (y * cell + cell / 2), cell.
  split.
  - unfold texts. cbn [elements].
    rewrite (create_svg_texts luminance_data width height rows Hrows).
    exact Hnth.
  - cbn [dsize fst snd].
    assert (Hc : SCALE_FACTOR * width <= cell /\ SCALE_FACTOR * height <= cell)
      by (subst cell; unfold cell_size_of; cbn [fst snd]; lia).
    unfold SCALE_FACTOR in *.
    assert (Hhalf : 0 < cell / 2) by (apply Z.div_str_pos; lia).
    split; intros H1.
    + assert (cell <= x * cell) by nia. lia.
    + assert (cell <= y * cell) by nia. lia.
Qed.

Lemma glyphs_off_canvas_witness :
  luminance_buffer [0; 255] /\ 0 <= 2 /\ 0 <= 1
  /\ Py.len [0; 255] = 2 * 1
  /\ exists dwg,
       (forall save tr,
          create_svg save [0; 255] (2, 1) (Py.of_string "a") tr
          = match save dwg with
            | inr _ => (inr (output_path (Py.of_string "a")),
                        tr ++ [Saved (output_path (Py.of_string "a")) dwg])
            | inl e => (inl e, tr)
            end)
       /\ forall x y,
            0 <= x < 2 -> 0 <= y < 1 ->
            exists c cx cy cell,
              nth_error (texts dwg) (Z.to_nat (y * 2 + x))
              = Some (glyph c cx cy cell)
              /\ (1 <= x -> fst (dsize dwg) < cx)
              /\ (1 <= y -> snd (dsize dwg) < cy).
Proof.
  assert (Hbuf : luminance_buffer [0; 255]) by (repeat constructor; lia).
  split; [exact Hbuf|]. split; [lia|]. split; [lia|].
  split; [reflexivity|].
  apply (glyphs_off_canvas [0; 255] 2 1 (Py.of_string "a") Hbuf);
    [lia|lia|reflexivity].
Defined.

(** ** Output names *)

Lemma split_head_stem (stem rest : Py.str) :
  ~ In 46 stem -> Py.split_head 46 (stem ++ 46 :: rest) = stem.
Proof.
  induction stem as [|c stem IH]; intros Hdot; cbn [app Py.split_head].
  - reflexivity.
  - destruct (Z.eqb_spec c 46) as [->|_].
    + contradiction Hdot. left. reflexivity.
    + f_equal. apply IH. intros Hin. apply Hdot. right. exact Hin.
Qed.

Lemma path_join_relative (stem : Py.str) (rest : Py.str) :
  (forall tail, stem ++ rest <> 47 :: tail) ->
  Py.path_join OUTPUT_DIRECTORY (stem ++ rest)
  = OUTPUT_DIRECTORY ++ stem ++ rest.
Proof.
  intros Hrel. unfold Py.path_join.
  destruct (stem ++ rest) as [|c s] eqn:Hs; [reflexivity|].
  unfold Py.startswith1. cbn [length Nat.leb firstn Py.of_string map
                                list_ascii_of_string Py.eqb].
  destruct (Z.eqb_spec c (Z.of_N (N_of_ascii "/"))) as [Hc|Hc].
  - exfalso. apply (Hrel s). rewrite Hc. reflexivity.
  - reflexivity.
Qed.

(** X13: the name under which a drawing is saved is read off the file name
    up to its first dot: for a file name [stem.rest] whose stem holds no dot
    and does not begin with a slash, [main] hands [stem] to [create_svg],
    which saves under [output/stem.svg].  File names that agree up to the
    first dot share one output path. *)
Theorem output_name (stem rest : Py.str) :
  ~ In 46 stem -> (forall tail, stem <> 47 :: tail) ->
  output_path (Py.split_head 46 (stem ++ 46 :: rest))
  = OUTPUT_DIRECTORY ++ stem ++ Py.of_string ".svg".
Proof.
  intros Hdot Hrel. rewrite split_head_stem by exact Hdot.
  unfold output_path. apply path_join_relative.
  intros tail Heq. destruct stem as [|c stem].
  - discriminate Heq.
  - injection Heq as -> _. exact (Hrel stem eq_refl).
Qed.

Lemma output_name_witness :
  ~ In 46 (Py.of_string "photo")
  /\ (forall tail, Py.of_string "photo" <> 47 :: tail)
  /\ output_path (Py.split_head 46
                    (Py.of_string "photo" ++ 46 :: Py.of_string "v2.PNG"))
     = OUTPUT_DIRECTORY ++ Py.of_string "photo" ++ Py.of_string ".svg".
Proof.
  assert (Hdot : ~ In 46 (Py.of_string "photo")).
  { cbn. intros H. repeat (destruct H as [H|H]; [discriminate H|]).
    exact H. }
  assert (Hrel : forall tail, Py.of_string "photo" <> 47 :: tail)
    by (intros tail; discriminate).
  split; [exact Hdot|]. split; [exact Hrel|].
  exact (output_name (Py.of_string "photo") (Py.of_string "v2.PNG")
           Hdot Hrel).
Defined.

(** ** The orchestrator, stage by stage *)

Section MainFacts.

Variable listdir : Py.str -> result (list Py.str).
Variable lower : Py.str -> Py.str.
Variable open_rgb : Py.str -> result Image.
Variable resize : Image -> Z * Z -> result Image.
Variable enhance : Image -> float -> result Image.
Variable save : Drawing -> result unit.

Lemma main_stages (tr : list event) :
  main listdir lower open_rgb resize enhance save tr
  = match prepare listdir lower open_rgb resize enhance with
    | inl e => (inl e, tr)
    | inr (file_names, contrasted_images, luminance_data) =>
        render_all save file_names contrasted_images luminance_data tr
    end.
Proof.
  unfold main, prepare, render_all, io_bind, lift.
  destruct (load_images_from_directory listdir lower open_rgb INPUT_DIRECTORY)
    as [e|[file_names original_images]]; cbn [bind]; [reflexivity|].
  destruct (comprehension (fun image => resize_image resize image MAX_SIZE)
              original_images) as [e|resized_images]; cbn [bind];
    [reflexivity|].
  destruct (for_ resized_images _ []) as [e|contrasted_images]; cbn [bind];
    [reflexivity|].
  destruct (comprehension rgb_to_luminance
              (map get_pixel_data contrasted_images))
    as [e|luminance_data]; cbn [bind ret]; reflexivity.
Qed.

(** X14: the whole batch is loaded, resized, enhanced and converted to
    luminance before the first drawing is rendered: an exception raised for
    any image in any of these stages ends [main] with that exception and
    leaves the trace of events as it was, so no drawing is saved, not even
    for the images before the failing one; the file writer is not
    reached. *)
Theorem main_fails_before_rendering (e : exn) (tr : list event) :
  prepare listdir lower open_rgb resize enhance = inl e ->
  main listdir lower open_rgb resize enhance save tr = (inl e, tr).
Proof. intros H. rewrite main_stages, H. reflexivity. Qed.

(** X15: on an empty input directory [main] saves and prints nothing and
    ends in [UnboundLocalError]: the [print] after the loop reads
    [file_name], which only the loop body assigns. *)
Theorem main_empty_directory (tr : list event) :
  listdir INPUT_DIRECTORY = inr [] ->
  main listdir lower open_rgb resize enhance save tr
  = (inl (UnboundLocalError "file_name"), tr).
Proof.
  intros Hdir. rewrite main_stages.
  unfold prepare, load_images_from_directory. rewrite Hdir. reflexivity.
Qed.

End MainFacts.

Lemma main_fails_before_rendering_witness :
  prepare listdir_strips ascii_lower open_empty resize_blank enhance_id
  = inl ZeroDivisionError
  /\ main listdir_strips ascii_lower open_empty resize_blank enhance_id
       save_ok []
     = (inl ZeroDivisionError, []).
Proof.
  assert (H : prepare listdir_strips ascii_lower open_empty resize_blank
                enhance_id = inl ZeroDivisionError)
    by reflexivity.
  split; [exact H|].
  exact (main_fails_before_rendering listdir_strips ascii_lower open_empty
           resize_blank enhance_id save_ok _ [] H).
Defined.

Lemma main_empty_directory_witness :
  (fun _ : Py.str => @inr exn (list Py.str) []) INPUT_DIRECTORY = inr []
  /\ main (fun _ => inr []) ascii_lower open_sample resize_blank enhance_id
       save_ok []
     = (inl (UnboundLocalError "file_name"), []).
Proof.
  split; [reflexivity|].
  apply (main_empty_directory (fun _ => inr []) ascii_lower open_sample
           resize_blank enhance_id save_ok []).
  reflexivity.
Defined.

(** ** From a well-formed image to its drawing *)

Lemma rgb_to_luminance_buffer (pixel_data : list rgb) :
  Forall channels_8bit pixel_data ->
  forall lum, rgb_to_luminance pixel_data = inr lum ->
              length lum = length pixel_data /\ luminance_buffer lum.
Proof.
  intros H8 lum Hlum. unfold rgb_to_luminance in Hlum.
  split; [exact (comprehension_length _ _ _ Hlum)|].
  apply comprehension_inr in Hlum. unfold luminance_buffer.
  induction Hlum as [|p v ps vs Hpv _ IH]; constructor.
  - inversion H8 as [|? ? Hp _]; subst.
    destruct (luminance_8bit p Hp) as (v' & Hv' & Hrange & _).
    rewrite Hpv in Hv'. injection Hv' as <-. exact Hrange.
  - apply IH. inversion H8; assumption.
Qed.

Lemma render_pair (image : Image) (lum : list Z) :
  well_formed image ->
  rgb_to_luminance (getdata image) = inr lum ->
  forall file_name,
  exists dwg,
    (forall save tr,
       create_svg save lum (size image) file_name tr = written save dwg tr)
    /\ filename dwg = output_path file_name
    /\ dsize dwg
       = (SCALE_FACTOR * fst (size image), SCALE_FACTOR * snd (size image))
    /\ Py.len (texts dwg) = fst (size image) * snd (size image).
Proof.
  intros (Hw & Hh & Hlen & H8) Hlum file_name.
  destruct (rgb_to_luminance_buffer _ H8 lum Hlum) as [Hl Hbuf].
  destruct (size image) as [w h] eqn:Hsz. cbn [fst snd] in *.
  assert (Hlen' : Py.len lum = w * h).
  { unfold Py.len in *. rewrite Hl. exact Hlen. }
  destruct (create_svg_grid lum w h file_name Hbuf Hw Hh Hlen')
    as (rows & Hrows & Hsvg).
  eexists. split; [exact Hsvg|].
  split; [reflexivity|]. split; [reflexivity|].
  unfold texts, Py.len. cbn [elements].
  rewrite (create_svg_texts lum w h rows Hrows).
  rewrite (grid_length _ w h rows Hw Hh Hrows). lia.
Qed.

(** X16: extraction and rendering compose on every well-formed image: the
    luminance buffer of its pixels satisfies what [create_svg] needs, so
    [create_svg] raises nothing of its own and hands one drawing to
    [dwg.save()], named by the output path of the file name
    ([os.path.join] of the output directory and the name with [.svg]),
    with a canvas [SCALE_FACTOR] times the image's size and one text
    primitive per pixel.  When the write succeeds the call returns that
    path with the drawing recorded as saved; when it raises, the call ends
    with that exception and the trace as it was. *)
Theorem render_well_formed (image : Image) (file_name : Py.str) :
  well_formed image ->
  exists lum dwg,
    rgb_to_luminance (get_pixel_data image) = inr lum
    /\ (forall save tr,
          create_svg save lum (size image) file_name tr
          = match save dwg with
            | inr _ => (inr (output_path file_name),
                        tr ++ [Saved (output_path file_name) dwg])
            | inl e => (inl e, tr)
            end)
    /\ filename dwg = output_path file_name
    /\ dsize dwg
       = (SCALE_FACTOR * fst (size image), SCALE_FACTOR * snd (size image))
    /\ Py.len (texts dwg) = fst (size image) * snd (size image).
Proof.
  intros Hwf. unfold get_pixel_data.
  destruct (comprehension_total luminance (getdata image)) as [lum Hlum].
  { intros p Hp. destruct Hwf as (_ & _ & _ & H8).
    rewrite Forall_forall in H8.
    destruct (luminance_8bit p (H8 p Hp)) as (v & Hv & _).
    exists v. exact Hv. }
  fold (rgb_to_luminance (getdata image)) in Hlum.
  destruct (render_pair image lum Hwf Hlum file_name)
    as (dwg & Hsvg & Hname & Hd).
  exists lum, dwg. split; [exact Hlum|]. split; [|exact (conj Hname Hd)].
  intros save tr. rewrite Hsvg. unfold written. rewrite Hname.
  destruct (save dwg); reflexivity.
Qed.

Lemma strip_well_formed : well_formed strip.
Proof.
  unfold well_formed, strip. cbn [size getdata fst snd].
  split; [lia|]. split; [lia|]. split; [reflexivity|].
  apply Forall_forall. intros p Hp. apply repeat_spec in Hp. subst p.
  cbn. lia.
Qed.

Lemma render_well_formed_witness :
  well_formed strip
  /\ exists lum dwg,
       rgb_to_luminance (get_pixel_data strip) = inr lum
       /\ (forall save tr,
             create_svg save lum (size strip) (Py.of_string "a") tr
             = match save dwg with
               | inr _ => (inr (output_path (Py.of_string "a")),
                           tr ++ [Saved (output_path (Py.of_string "a")) dwg])
               | inl e => (inl e, tr)
               end)
       /\ filename dwg = output_path (Py.of_string "a")
       /\ dsize dwg
          = (SCALE_FACTOR * fst (size strip), SCALE_FACTOR * snd (size strip))
       /\ Py.len (texts dwg) = fst (size strip) * snd (size strip).
Proof.
  split; [exact strip_well_formed|].
  exact (render_well_formed strip (Py.of_string "a") strip_well_formed).
Defined.

(** ** The orchestrator on a batch that goes through *)

Lemma getitem_head {A : Type} (a : A) (l : list A) :
  Py.getitem (a :: l) 0 = inr a.
Proof. reflexivity. Qed.

Lemma getitem_tail {A : Type} (a : A) (l : list A) (i : Z) :
  0 <= i -> Py.getitem (a :: l) (i + 1) = Py.getitem l i.
Proof.
  intros Hi. rewrite !getitem_nonneg by lia.
  replace (Z.to_nat (i + 1)) with (S (Z.to_nat i)) by lia. reflexivity.
Qed.

Lemma range_cons {A : Type} (a : A) (l : list A) :
  Py.range (Py.len (a :: l))
  = 0 :: map (fun z => z + 1) (Py.range (Py.len l)).
Proof.
  unfold Py.range, Py.len. rewrite !Nat2Z.id. cbn [length seq map].
  f_equal. rewrite <- seq_shift, !map_map. apply map_ext.
  intros k. lia.
Qed.

Lemma io_for_map {A B S : Type} (f : A -> B) (body : B -> S -> io S) :
  forall l s tr,
    io_for (map f l) body s tr = io_for l (fun a => body (f a)) s tr.
Proof.
  induction l as [|a l IH]; intros s tr; cbn [map io_for]; [reflexivity|].
  unfold io_bind. destruct (body (f a) s tr) as [[e|s'] tr'];
    [reflexivity|apply IH].
Qed.

Lemma io_for_ext {A S : Type} (body body' : A -> S -> io S) :
  forall l s tr,
    (forall a s' tr', In a l -> body a s' tr' = body' a s' tr') ->
    io_for l body s tr = io_for l body' s tr.
Proof.
  induction l as [|a l IH]; intros s tr H; cbn [io_for]; [reflexivity|].
  unfold io_bind. rewrite (H a s tr (or_introl eq_refl)).
  destruct (body' a s tr) as [[e|s'] tr']; [reflexivity|].
  apply IH. intros a' s'' tr'' Ha'. apply H. right. exact Ha'.
Qed.

Lemma render_body_shift (save : Drawing -> result unit)
  (n : Py.str) (c : Image) (l : list Z)
  (file_names : list Py.str) (contrasted_images : list Image)
  (luminance_data : list (list Z)) (i : Z) (st : option Py.str)
  (tr : list event) :
  0 <= i ->
  render_body save (n :: file_names) (c :: contrasted_images)
    (l :: luminance_data) (i + 1) st tr
  = render_body save file_names contrasted_images luminance_data i st tr.
Proof.
  intros Hi. unfold render_body. rewrite !getitem_tail by exact Hi.
  reflexivity.
Qed.

Lemma render_loop :
  forall (file_names : list Py.str) (contrasted_images : list Image)
         (luminance_data : list (list Z)),
    Forall2 (fun c l => well_formed c
                        /\ rgb_to_luminance (getdata c) = inr l)
      contrasted_images luminance_data ->
    length contrasted_images = length file_names ->
    exists dwgs,
      Forall2 (fun nc dwg => drawing_of (fst nc) (snd nc) dwg)
        (combine file_names contrasted_images) dwgs
      /\ forall save st tr,
           io_for (Py.range (Py.len luminance_data))
             (render_body save file_names contrasted_images luminance_data)
             st tr
           = write_all save dwgs st tr.
Proof.
  induction file_names as [|n file_names IH];
    intros contrasted_images luminance_data Hall Hlen.
  - destruct contrasted_images; [|discriminate Hlen].
    inversion Hall; subst. exists []. split; [constructor|].
    intros save st tr. reflexivity.
  - destruct contrasted_images as [|c contrasted_images];
      [discriminate Hlen|].
    inversion Hall as [|? l ? luminance_data' [Hwf Hlum] Hrest]; subst.
    injection Hlen as Hlen.
    destruct (render_pair c l Hwf Hlum (Py.split_head 46 n))
      as (dwg & Hsvg & Hname & Hsize & Hcount).
    destruct (IH contrasted_images luminance_data' Hrest Hlen)
      as (dwgs & Hdwgs & Hloop).
    exists (dwg :: dwgs). split.
    + cbn [combine]. constructor; [|exact Hdwgs].
      cbn [fst snd]. unfold drawing_of. auto.
    + intros save st tr.
      rewrite range_cons. cbn [io_for write_all]. unfold io_bind.
      assert (Hfirst :
        render_body save (n :: file_names) (c :: contrasted_images)
          (l :: luminance_data') 0 st tr
        = match written save dwg tr with
          | (inl e, tr') => (inl e, tr')
          | (inr saved, tr') => (inr (Some saved), tr')
          end).
      { unfold render_body, io_bind, lift, io_ret.
        rewrite !getitem_head, Hsvg.
        destruct (written save dwg tr) as [[e|saved] tr']; reflexivity. }
      rewrite Hfirst.
      destruct (written save dwg tr) as [[e|saved] tr']; [reflexivity|].
      rewrite io_for_map.
      rewrite (io_for_ext _
                 (render_body save file_names contrasted_images
                    luminance_data')).
      2:{ intros i st' tr'' Hi. apply range_In in Hi.
          apply render_body_shift. lia. }
      apply Hloop.
Qed.

Lemma write_all_ok (save : Drawing -> result unit) :
  forall (file_names : list Py.str) (contrasted_images : list Image)
         (dwgs : list Drawing),
    length contrasted_images = length file_names ->
    Forall2 (fun nc dwg => drawing_of (fst nc) (snd nc) dwg)
      (combine file_names contrasted_images) dwgs ->
    Forall (fun dwg => save dwg = inr tt) dwgs ->
    forall st tr,
      write_all save dwgs st tr
      = (inr (last_saved st file_names),
         tr ++ map (fun dwg => Saved (filename dwg) dwg) dwgs).
Proof.
  induction file_names as [|n file_names IH];
    intros contrasted_images dwgs Hlen Hdwgs Hok st tr.
  - destruct contrasted_images; [|discriminate Hlen].
    inversion Hdwgs; subst. cbn. rewrite app_nil_r. reflexivity.
  - destruct contrasted_images as [|c contrasted_images];
      [discriminate Hlen|].
    injection Hlen as Hlen. cbn [combine] in Hdwgs.
    inversion Hdwgs as [|? dwg ? dwgs' (Hname & _) Hrest]; subst.
    cbn [fst snd] in Hname.
    inversion Hok as [|? ? Hsave Hok']; subst.
    cbn [write_all last_saved map]. unfold io_bind, written.
    rewrite Hsave, Hname.
    rewrite (IH contrasted_images dwgs' Hlen Hrest Hok').
    rewrite <- app_assoc. reflexivity.
Qed.

Lemma write_all_raises (save : Drawing -> result unit) (e : exn)
  (dwg : Drawing) (post : list Drawing) :
  save dwg = inl e ->
  forall pre st tr,
    Forall (fun d => save d = inr tt) pre ->
    write_all save (pre ++ dwg :: post) st tr
    = (inl e, tr ++ map (fun d => Saved (filename d) d) pre).
Proof.
  intros Hsave. induction pre as [|d pre IH]; intros st tr Hok;
    cbn [app write_all map]; unfold io_bind, written.
  - rewrite Hsave, app_nil_r. reflexivity.
  - inversion Hok as [|? ? Hd Hok']; subst. rewrite Hd.
    rewrite (IH _ _ Hok'), <- app_assoc. reflexivity.
Qed.

Lemma last_saved_last (st : option Py.str) (file_names : list Py.str) :
  file_names <> [] ->
  last_saved st file_names
  = Some (output_path (Py.split_head 46 (last file_names []))).
Proof.
  revert st. induction file_names as [|n file_names IH]; intros st Hne;
    [contradiction Hne; reflexivity|].
  cbn [last_saved]. destruct file_names as [|n' file_names].
  - reflexivity.
  - rewrite IH by discriminate. reflexivity.
Qed.

Lemma for_snoc {A B : Type} (f : A -> result B) :
  forall l acc,
    for_ l (fun a acc' => b <- f a ;; ret (acc' ++ [b])) acc
    = (bs <- comprehension f l ;; ret (acc ++ bs)).
Proof.
  induction l as [|a l IH]; intros acc; cbn [for_ comprehension bind ret].
  - rewrite app_nil_r. reflexivity.
  - destruct (f a) as [e|b]; cbn [bind ret]; [reflexivity|].
    rewrite IH. destruct (comprehension f l) as [e|bs]; cbn [bind ret];
      [reflexivity|].
    rewrite <- app_assoc. reflexivity.
Qed.

Lemma Forall2_map_left {A B C : Type} (f : A -> B) (R : B -> C -> Prop) :
  forall l l', Forall2 R (map f l) l' -> Forall2 (fun a c => R (f a) c) l l'.
Proof.
  induction l as [|a l IH]; intros l' H; inversion H; subst; constructor;
    [assumption|apply IH; assumption].
Qed.

Section MainSuccess.

Variable listdir : Py.str -> result (list Py.str).
Variable lower : Py.str -> Py.str.
Variable open_rgb : Py.str -> result Image.
Variable resize : Image -> Z * Z -> result Image.
Variable enhance : Image -> float -> result Image.

Lemma prepare_shape (file_names : list Py.str)
  (contrasted_images : list Image) (luminance_data : list (list Z)) :
  prepare listdir lower open_rgb resize enhance
  = inr (file_names, contrasted_images, luminance_data) ->
  listdir INPUT_DIRECTORY = inr file_names
  /\ length contrasted_images = length file_names
  /\ Forall2 (fun c l => rgb_to_luminance (getdata c) = inr l)
       contrasted_images luminance_data.
Proof.
  unfold prepare. rewrite load_comprehension.
  destruct (listdir INPUT_DIRECTORY) as [e|names]; cbn [bind];
    [discriminate|].
  destruct (comprehension (load_entry lower open_rgb INPUT_DIRECTORY) names)
    as [e|original_images] eqn:Hload; cbn [bind ret]; [discriminate|].
  destruct (comprehension (fun image => resize_image resize image MAX_SIZE)
              original_images) as [e|resized_images] eqn:Hres; cbn [bind];
    [discriminate|].
  rewrite (for_snoc (fun image => enhance image ENHANCEMENT_FACTOR)).
  destruct (comprehension (fun image => enhance image ENHANCEMENT_FACTOR)
              resized_images) as [e|enhanced] eqn:Henh; cbn [bind ret app];
    [discriminate|].
  destruct (comprehension rgb_to_luminance (map get_pixel_data enhanced))
    as [e|lums] eqn:Hlum; cbn [bind ret]; [discriminate|].
  intros [= <- <- <-]. split; [reflexivity|]. split.
  - rewrite (comprehension_length _ _ _ Henh),
      (comprehension_length _ _ _ Hres), (comprehension_length _ _ _ Hload).
    reflexivity.
  - apply comprehension_inr in Hlum. apply Forall2_map_left in Hlum.
    exact Hlum.
Qed.

(** X17: when the stages before rendering go through for a batch that is
    not empty and the enhanced images are well-formed, [main] hands one
    drawing per listed file to [dwg.save()], in listing order, each named
    by the output path of its file name and with the canvas and the glyph
    count of its image.  When every write succeeds, [main] returns
    normally, having saved exactly these drawings and then printed one
    line, which names the last saved file only.  When a write raises, as
    every write does while the output directory is missing, [main] ends
    with the exception of the first such write: the drawings before it
    stay saved, no later one is written and nothing is printed. *)
Theorem main_writes_in_order (file_names : list Py.str)
  (contrasted_images : list Image) (luminance_data : list (list Z)) :
  prepare listdir lower open_rgb resize enhance
  = inr (file_names, contrasted_images, luminance_data) ->
  Forall well_formed contrasted_images ->
  file_names <> [] ->
  exists dwgs,
    listdir INPUT_DIRECTORY = inr file_names
    /\ length dwgs = length file_names
    /\ Forall2 (fun nc dwg => drawing_of (fst nc) (snd nc) dwg)
         (combine file_names contrasted_images) dwgs
    /\ (forall save tr,
          Forall (fun dwg => save dwg = inr tt) dwgs ->
          main listdir lower open_rgb resize enhance save tr
          = (inr tt,
             tr ++ map (fun dwg => Saved (filename dwg) dwg) dwgs
                ++ [Printed (Py.of_string "Saved file: "
                             ++ output_path
                                  (Py.split_head 46 (last file_names [])))]))
    /\ (forall save tr pre dwg post e,
          dwgs = pre ++ dwg :: post ->
          Forall (fun d => save d = inr tt) pre ->
          save dwg = inl e ->
          main listdir lower open_rgb resize enhance save tr
          = (inl e, tr ++ map (fun d => Saved (filename d) d) pre)).
Proof.
  intros Hprep Hwf Hne.
  destruct (prepare_shape _ _ _ Hprep) as (Hdir & Hlen & Hlum).
  assert (Hall : Forall2 (fun c l => well_formed c
                                     /\ rgb_to_luminance (getdata c) = inr l)
                   contrasted_images luminance_data).
  { clear - Hwf Hlum. induction Hlum as [|c l cs ls Hcl _ IH];
      constructor.
    - inversion Hwf; subst. split; assumption.
    - apply IH. inversion Hwf; assumption. }
  destruct (render_loop file_names contrasted_images luminance_data Hall
              Hlen) as (dwgs & Hdwgs & Hloop).
  exists dwgs. split; [exact Hdir|]. split.
  { rewrite <- (Forall2_length Hdwgs), length_combine, Hlen.
    apply Nat.min_id. }
  split; [exact Hdwgs|]. split.
  - intros save tr Hok.
    rewrite main_stages, Hprep. unfold render_all, io_bind.
    rewrite Hloop, (write_all_ok save _ _ _ Hlen Hdwgs Hok).
    rewrite (last_saved_last None file_names Hne).
    unfold emit, ret. rewrite <- app_assoc. reflexivity.
  - intros save tr pre dwg post e -> Hok Hsave.
    rewrite main_stages, Hprep. unfold render_all, io_bind.
    rewrite Hloop, (write_all_raises save e dwg post Hsave pre None tr Hok).
    reflexivity.
Qed.

End MainSuccess.

Lemma main_writes_in_order_witness :
  prepare listdir_strips ascii_lower open_strip resize_blank enhance_id
  = inr (strips_listing, [strip; strip], [repeat 0 200; repeat 0 200])
  /\ Forall well_formed [strip; strip]
  /\ strips_listing <> []
  /\ exists dwgs,
       listdir_strips INPUT_DIRECTORY = inr strips_listing
       /\ length dwgs = length strips_listing
       /\ Forall2 (fun nc dwg => drawing_of (fst nc) (snd nc) dwg)
            (combine strips_listing [strip; strip]) dwgs
       /\ (forall save tr,
             Forall (fun dwg => save dwg = inr tt) dwgs ->
             main listdir_strips ascii_lower open_strip resize_blank
               enhance_id save tr
             = (inr tt,
                tr ++ map (fun dwg => Saved (filename dwg) dwg) dwgs
                   ++ [Printed (Py.of_string "Saved file: "
                                ++ output_path
                                     (Py.split_head 46
                                        (last strips_listing [])))]))
       /\ (forall save tr pre dwg post e,
             dwgs = pre ++ dwg :: post ->
             Forall (fun d => save d = inr tt) pre ->
             save dwg = inl e ->
             main listdir_strips ascii_lower open_strip resize_blank
               enhance_id save tr
             = (inl e, tr ++ map (fun d => Saved (filename d) d) pre)).
Proof.
  assert (Hprep : prepare listdir_strips ascii_lower open_strip resize_blank
                    enhance_id
                  = inr (strips_listing, [strip; strip],
                         [repeat 0 200; repeat 0 200]))
    by (vm_compute; reflexivity).
  assert (Hwf : Forall well_formed [strip; strip])
    by (apply Forall_cons; [|apply Forall_cons; [|apply Forall_nil]];
        exact strip_well_formed).
  assert (Hne : strips_listing <> []) by discriminate.
  split; [exact Hprep|]. split; [exact Hwf|]. split; [exact Hne|].
  exact (main_writes_in_order listdir_strips ascii_lower open_strip
           resize_blank enhance_id _ _ _ Hprep Hwf Hne).
Defined.
